(** * GSTR-2B vs Tally reconciliation: the matching core of
    [gst_reconciliation_app.py], embedded in Rocq.

    Modelling conventions.
    - A spreadsheet cell is the text pandas shows for it ([astype(str)]);
      text is ASCII.
    - Amounts are exact rationals ([Qc], canonical fractions with Leibniz
      equality) where the script holds float64 numbers; subtraction,
      [abs] and the comparison with [0.01] are exact.
    - A pandas column holding either a string or NaN is an [option string],
      [None] being NaN.
    - Library functions whose behaviour the script merely relies on
      ([pd.to_datetime], [pd.to_numeric] on arbitrary cells, [str] of a
      float) are section variables. *)

From Stdlib Require Import Ascii String QArith Qcanon Qabs Qcabs Qround.
From stdpp Require Import base gmap sets list strings pretty numbers.

Local Close Scope Q_scope.
Local Close Scope Qc_scope.
Local Open Scope string_scope.

(** ** Text helpers: the [str] methods the script calls *)

Module Text.

(** [str.isspace] on ASCII: tab, LF, VT, FF, CR, FS, GS, RS, US, space. *)
Definition is_space (c : ascii) : bool :=
  let n := nat_of_ascii c in
  ((9 <=? n)%nat && (n <=? 13)%nat) || ((28 <=? n)%nat && (n <=? 32)%nat).

(** [\d] of the regular expression, on ASCII. *)
Definition is_digit (c : ascii) : bool :=
  let n := nat_of_ascii c in (48 <=? n)%nat && (n <=? 57)%nat.

Definition is_lower (c : ascii) : bool :=
  let n := nat_of_ascii c in (97 <=? n)%nat && (n <=? 122)%nat.

Definition upper_char (c : ascii) : ascii :=
  if is_lower c then ascii_of_nat (nat_of_ascii c - 32) else c.

(** [s.upper()] *)
Fixpoint upper (s : string) : string :=
  match s with
  | EmptyString => EmptyString
  | String c r => String (upper_char c) (upper r)
  end.

(** [s.lstrip()] *)
Fixpoint lstrip (s : string) : string :=
  match s with
  | EmptyString => EmptyString
  | String c r => if is_space c then lstrip r else s
  end.

(** [s.rstrip()] *)
Fixpoint rstrip (s : string) : string :=
  match s with
  | EmptyString => EmptyString
  | String c r =>
      match rstrip r with
      | EmptyString => if is_space c then EmptyString else String c EmptyString
      | r' => String c r'
      end
  end.

(** [s.strip()] *)
Definition strip (s : string) : string := rstrip (lstrip s).

(** Keeps the characters satisfying [keep], in order. *)
Fixpoint keep_chars (keep : ascii -> bool) (s : string) : string :=
  match s with
  | EmptyString => EmptyString
  | String c r => if keep c then String c (keep_chars keep r) else keep_chars keep r
  end.

(** [s.replace('-', '')] *)
Definition remove_dashes (s : string) : string :=
  keep_chars (fun c => negb (Ascii.eqb c "-")) s.

(** [sep.join(parts)] *)
Fixpoint join (sep : string) (parts : list string) : string :=
  match parts with
  | [] => EmptyString
  | p :: [] => p
  | p :: rest => p ++ sep ++ join sep rest
  end.

Fixpoint chars (s : string) : list ascii :=
  match s with
  | EmptyString => []
  | String c r => c :: chars r
  end.

End Text.

(** [clean_value]: [str(value).strip().upper()]; the [except] branch is
    unreachable on text. *)
Definition clean_value (value : string) : string :=
  Text.upper (Text.strip value).

(** ** Amounts *)

Module Amount.

Local Open Scope Qc_scope.

(** The literal [0.01] of the tolerance tests. *)
Definition tolerance : Qc := Q2Qc (1 # 100).

(** [abs(x - y) > 0.01] *)
Definition differs (x y : Qc) : bool :=
  bool_decide (tolerance < Qcabs (x - y)).

(** [round(x, 2)]: nearest multiple of 0.01, ties to the even one. *)
Definition round2 (x : Qc) : Qc :=
  let y := (x * Q2Qc (100 # 1)) in
  let f := Qfloor y in
  let r := y - Q2Qc (inject_Z f) in
  let half := Q2Qc (1 # 2) in
  let n := if bool_decide (r < half) then f
           else if bool_decide (half < r) then (f + 1)%Z
           else if Z.even f then f else (f + 1)%Z in
  Q2Qc (n # 100).

Definition digit_val (c : ascii) : N := N.of_nat (nat_of_ascii c - 48).

(** Value of a run of decimal digits, most significant first. *)
Fixpoint digits_to_N (acc : N) (s : string) : N :=
  match s with
  | EmptyString => acc
  | String c r => digits_to_N (10 * acc + digit_val c)%N r
  end.

(** Splits off the longest prefix of digits. *)
Fixpoint span_digits (s : string) : string * string :=
  match s with
  | EmptyString => (EmptyString, EmptyString)
  | String c r =>
      if Text.is_digit c
      then let '(d, rest) := span_digits r in (String c d, rest)
      else (EmptyString, s)
  end.

Definition all_digits (s : string) : bool := forallb Text.is_digit (Text.chars s).

Definition is_empty (s : string) : bool :=
  match s with EmptyString => true | _ => false end.

(** [pd.to_numeric(text, errors='coerce')] on text made of digits and
    points, which is all the regular expression lets through: an
    integer part, an optional point and a fraction, with at least one
    digit overall.  [None] is the NaN that [coerce] produces; any other
    text is rejected here. *)
Definition to_numeric (s : string) : option Qc :=
  let '(ip, rest) := span_digits s in
  match rest with
  | EmptyString =>
      if is_empty ip then None
      else Some (Q2Qc (inject_Z (Z.of_N (digits_to_N 0 ip))))
  | String c fp =>
      if Ascii.eqb c "." && all_digits fp && negb (is_empty ip && is_empty fp)
      then Some (Q2Qc (Z.of_N (digits_to_N 0 (ip ++ fp))
                       # Z.to_pos (10 ^ Z.of_nat (String.length fp))))
      else None
  end.

(** [.fillna(0)] *)
Definition fillna0 (x : option Qc) : Qc := default (Q2Qc 0) x.

(** [.str.replace(r'[^\d.]+', '', regex=True)]: every maximal run of
    characters other than digits and points is deleted. *)
Definition strip_non_numeric (s : string) : string :=
  Text.keep_chars (fun c => Text.is_digit c || Ascii.eqb c ".") s.

(** The normalisation of [Invoice Value] and [Taxable Value]. *)
Definition normalize_amount (cell : string) : Qc :=
  fillna0 (to_numeric (strip_non_numeric cell)).

End Amount.

(** ** Dates *)

Module Date.

(** A parsed [Timestamp]: only the calendar fields are used. *)
Record Timestamp := { day : nat; month : nat; year : nat }.

Definition digit_char (n : nat) : ascii := ascii_of_nat (48 + n mod 10).

(** Zero-padded fields of [strftime]: [%d] and [%m] print two digits,
    [%Y] four (a pandas Timestamp has a four-digit year). *)
Definition two_digits (n : nat) : string :=
  String (digit_char (n / 10)) (String (digit_char n) EmptyString).

Definition four_digits (n : nat) : string :=
  String (digit_char (n / 1000)) (String (digit_char (n / 100))
    (String (digit_char (n / 10)) (String (digit_char n) EmptyString))).

(** [ts.strftime('%d-%m-%Y')] *)
Definition strftime (t : Timestamp) : string :=
  two_digits (day t) ++ "-" ++ two_digits (month t) ++ "-" ++ four_digits (year t).

(** [.astype(str)] on the date column: NaN prints as [nan]. *)
Definition astype_str (d : option string) : string :=
  match d with
  | Some s => s
  | None => "nan"
  end.

(** The date component of both match keys:
    [df['Invoice Date'].astype(str).str.replace('-', '')]. *)
Definition key_text (d : option string) : string :=
  Text.remove_dashes (astype_str d).

(** [x != y] on two cells of the date column, as the Sheet 5 loop
    evaluates it: equal strings are the only equal cells, NaN differs
    from everything, itself included. *)
Definition ne (x y : option string) : bool :=
  match x, y with
  | Some s, Some t => negb (String.eqb s t)
  | _, _ => true
  end.

End Date.

(** ** Records *)

(** One row of a data frame after normalisation (lines 134-148). *)
Record Row := {
  S_No : string;
  GSTIN_of_Supplier : string;
  Trade_Legal_Name : string;
  Invoice_Number : string;
  Invoice_Date : option string;
  Invoice_Value : Qc;
  Taxable_Value : Qc;
  IGST : Qc;
  CGST : Qc;
  SGST : Qc
}.

(** A data frame as read from the workbook: header and body. *)
Record Frame := { columns : list string; body : list (list string) }.

Definition required_columns : list string :=
  ["S.No"; "GSTIN of Supplier"; "Trade/Legal Name"; "Invoice Number";
   "Invoice Date"; "Invoice Value"; "Taxable Value"; "IGST"; "CGST"; "SGST"].

(** [normalize_dataframe_columns]: [df.columns.str.strip()]. *)
Definition normalize_dataframe_columns (df : Frame) : Frame :=
  {| columns := Text.strip <$> columns df; body := body df |}.

(** Position of the first column called [name]. *)
Fixpoint column_index (name : string) (cols : list string) : option nat :=
  match cols with
  | [] => None
  | c :: rest => if String.eqb c name then Some 0
                 else S <$> column_index name rest
  end.

(** [row[name]]: the cell of [row] under column [name]. *)
Definition cell (cols : list string) (row : list string) (name : string) : string :=
  match column_index name cols with
  | Some i => default EmptyString (row !! i)
  | None => EmptyString
  end.

Inductive Source := GSTR2B | Tally.

Definition source_name (f : Source) : string :=
  match f with GSTR2B => "GSTR2B" | Tally => "Tally" end.

(** The text passed to [st.error] for a missing column. *)
Definition missing_column_message (f : Source) (col : string) : string :=
  "❌ Missing required column in " ++ source_name f ++ " file: '" ++ col ++
  "'. Please ensure column names match the template exactly (e.g., no extra spaces, correct spelling).".

Definition has_column (df : Frame) (col : string) : bool :=
  bool_decide (col ∈ columns df).

(** The loop of lines 126-132: the first required column missing from
    the GSTR2B frame or, failing that, from the Tally frame, stops the
    run. *)
Fixpoint check_columns (required : list string) (gstr2b_df tally_df : Frame)
  : option (Source * string) :=
  match required with
  | [] => None
  | col :: rest =>
      if negb (has_column gstr2b_df col) then Some (GSTR2B, col)
      else if negb (has_column tally_df col) then Some (Tally, col)
      else check_columns rest gstr2b_df tally_df
  end.

(** ** Output rows *)

(** The dictionaries appended to [sheet1_data] and [sheet4_data]. *)
Module MatchRow.
Record t := {
  GSTR2B_S_No : string;
  Tally_S_No : string;
  GSTIN_of_Supplier : string;
  Trade_Legal_Name : string;
  Invoice_Number : string;
  Invoice_Date : option string;
  GSTR2B_Invoice_Value : Qc;
  Tally_Invoice_Value : Qc;
  Difference_Invoice_Value : Qc;
  GSTR2B_Taxable_Value : Qc;
  Tally_Taxable_Value : Qc;
  Difference_Taxable_Value : Qc;
  GSTR2B_IGST : Qc;
  Tally_IGST : Qc;
  Difference_IGST : Qc;
  GSTR2B_CGST : Qc;
  Tally_CGST : Qc;
  Difference_CGST : Qc;
  GSTR2B_SGST : Qc;
  Tally_SGST : Qc;
  Difference_SGST : Qc
}.
End MatchRow.

(** The dictionaries appended to [sheet5_records]. *)
Module PartialRow.
Record t := {
  GSTR2B_S_No : string;
  Tally_S_No : string;
  Invoice_Number : string;
  GSTR2B_GSTIN : string;
  Tally_GSTIN : string;
  GSTR2B_Invoice_Date : option string;
  Tally_Invoice_Date : option string;
  GSTR2B_Taxable_Value : Qc;
  Tally_Taxable_Value : Qc;
  Mismatch_Reason : string
}.

(** The [subset] of [drop_duplicates]. *)
Definition ids (r : t) : string * string := (GSTR2B_S_No r, Tally_S_No r).
End PartialRow.

(** The two sets of processed [S.No]. *)
Record Indices := {
  gstr2b_processed_indices : gset string;
  tally_processed_indices : gset string
}.

(** The five sheets handed to the Excel writer. *)
Record Report := {
  sheet1 : list MatchRow.t;
  sheet2 : list Row;
  sheet3 : list Row;
  sheet4_df : list MatchRow.t;
  sheet5_final : list PartialRow.t
}.

(** What a press of the button ends in: [st.stop()] after an error
    message, or the report. *)
Inductive Outcome :=
  | Stopped (message : string)
  | Completed (report : Report).

(** A row of a merged frame: the left row and the right row joined. *)
Definition Merged : Type := Row * Row.

(** [pd.merge(left, right, on=..., how='inner')]: every pair of a left
    and a right row with equal key, in the order of the left rows. *)
Definition merge (on : Row -> string) (left right : list Row) : list Merged :=
  left ≫= λ a, pair a <$> filter (λ b, on a = on b) right.

(** [df[~df['S.No'].isin(indices)]] *)
Definition not_isin (indices : gset string) (df : list Row) : list Row :=
  filter (λ r, S_No r ∉ indices) df.

(** The two [add] calls that close each loop body. *)
Definition add_processed (row : Merged) (p : Indices) : Indices :=
  {| gstr2b_processed_indices := {[ S_No row.1 ]} ∪ gstr2b_processed_indices p;
     tally_processed_indices := {[ S_No row.2 ]} ∪ tally_processed_indices p |}.

(** The shape shared by the three loops over a merged frame: a row that
    passes the test appends its dictionary and records both [S.No]. *)
Definition sheet_loop {R : Type} (keep : Merged -> bool) (entry : Merged -> R)
    (merged : list Merged) (acc : list R * Indices) : list R * Indices :=
  foldl (λ acc row,
           if keep row then ((acc.1 ++ [entry row])%list, add_processed row acc.2)
           else acc)
        acc merged.

(** [drop_duplicates(subset=['GSTR2B S.No', 'Tally S.No'], keep='first')],
    [seen] holding the combinations already kept. *)
Fixpoint drop_duplicates_from (seen : list (string * string))
    (records : list PartialRow.t) : list PartialRow.t :=
  match records with
  | [] => []
  | r :: rest =>
      if bool_decide (PartialRow.ids r ∈ seen)
      then drop_duplicates_from seen rest
      else r :: drop_duplicates_from (PartialRow.ids r :: seen) rest
  end.

Definition drop_duplicates (records : list PartialRow.t) : list PartialRow.t :=
  drop_duplicates_from [] records.

Local Open Scope Qc_scope.

(** The dictionary of the Sheet 1 loop (lines 187-209). *)
Definition sheet1_entry (row : Merged) : MatchRow.t :=
  let '(g, t) := row in
  {| MatchRow.GSTR2B_S_No := S_No g;
     MatchRow.Tally_S_No := S_No t;
     MatchRow.GSTIN_of_Supplier := GSTIN_of_Supplier g;
     MatchRow.Trade_Legal_Name := Trade_Legal_Name g;
     MatchRow.Invoice_Number := Invoice_Number g;
     MatchRow.Invoice_Date := Invoice_Date g;
     MatchRow.GSTR2B_Invoice_Value := Invoice_Value g;
     MatchRow.Tally_Invoice_Value := Invoice_Value t;
     MatchRow.Difference_Invoice_Value := Amount.round2 (Invoice_Value t - Invoice_Value g);
     MatchRow.GSTR2B_Taxable_Value := Taxable_Value g;
     MatchRow.Tally_Taxable_Value := Taxable_Value t;
     MatchRow.Difference_Taxable_Value := Amount.round2 (Taxable_Value t - Taxable_Value g);
     MatchRow.GSTR2B_IGST := IGST g;
     MatchRow.Tally_IGST := IGST t;
     MatchRow.Difference_IGST := Amount.round2 (IGST t - IGST g);
     MatchRow.GSTR2B_CGST := CGST g;
     MatchRow.Tally_CGST := CGST t;
     MatchRow.Difference_CGST := Amount.round2 (CGST t - CGST g);
     MatchRow.GSTR2B_SGST := SGST g;
     MatchRow.Tally_SGST := SGST t;
     MatchRow.Difference_SGST := Amount.round2 (SGST t - SGST g) |}.

(** The dictionary of the Sheet 4 loop (lines 236-258); it differs from
    Sheet 1 in rounding the Tally taxable value. *)
Definition sheet4_entry (row : Merged) : MatchRow.t :=
  let '(g, t) := row in
  {| MatchRow.GSTR2B_S_No := S_No g;
     MatchRow.Tally_S_No := S_No t;
     MatchRow.GSTIN_of_Supplier := GSTIN_of_Supplier g;
     MatchRow.Trade_Legal_Name := Trade_Legal_Name g;
     MatchRow.Invoice_Number := Invoice_Number g;
     MatchRow.Invoice_Date := Invoice_Date g;
     MatchRow.GSTR2B_Invoice_Value := Invoice_Value g;
     MatchRow.Tally_Invoice_Value := Invoice_Value t;
     MatchRow.Difference_Invoice_Value := Amount.round2 (Invoice_Value t - Invoice_Value g);
     MatchRow.GSTR2B_Taxable_Value := Taxable_Value g;
     MatchRow.Tally_Taxable_Value := Amount.round2 (Taxable_Value t);
     MatchRow.Difference_Taxable_Value := Amount.round2 (Taxable_Value t - Taxable_Value g);
     MatchRow.GSTR2B_IGST := IGST g;
     MatchRow.Tally_IGST := IGST t;
     MatchRow.Difference_IGST := Amount.round2 (IGST t - IGST g);
     MatchRow.GSTR2B_CGST := CGST g;
     MatchRow.Tally_CGST := CGST t;
     MatchRow.Difference_CGST := Amount.round2 (CGST t - CGST g);
     MatchRow.GSTR2B_SGST := SGST g;
     MatchRow.Tally_SGST := SGST t;
     MatchRow.Difference_SGST := Amount.round2 (SGST t - SGST g) |}.

Local Close Scope Qc_scope.

(** The Sheet 4 test (line 235). *)
Definition value_differs (row : Merged) : bool :=
  Amount.differs (Taxable_Value row.1) (Taxable_Value row.2).

(** The three tests of the Sheet 5 loop (lines 285-287). *)
Definition is_gstin_mismatch (row : Merged) : bool :=
  negb (String.eqb (GSTIN_of_Supplier row.1) (GSTIN_of_Supplier row.2)).

Definition is_date_mismatch (row : Merged) : bool :=
  Date.ne (Invoice_Date row.1) (Invoice_Date row.2).

Definition is_taxable_value_mismatch (row : Merged) : bool :=
  Amount.differs (Taxable_Value row.1) (Taxable_Value row.2).

(** Line 290. *)
Definition any_mismatch (row : Merged) : bool :=
  is_gstin_mismatch row || is_date_mismatch row || is_taxable_value_mismatch row.

(** Lines 291-297: the three conditional [append]s. *)
Definition mismatch_reason_parts (row : Merged) : list string :=
  let parts := [] in
  let parts := if is_gstin_mismatch row then (parts ++ ["GSTIN mismatch"])%list else parts in
  let parts := if is_date_mismatch row then (parts ++ ["Date mismatch"])%list else parts in
  let parts := if is_taxable_value_mismatch row
               then (parts ++ ["Taxable Value mismatch"])%list else parts in
  parts.

(** Line 298. *)
Definition mismatch_reason (row : Merged) : string :=
  Text.join ", " (mismatch_reason_parts row).

(** The dictionary of the Sheet 5 loop (lines 300-311). *)
Definition sheet5_entry (row : Merged) : PartialRow.t :=
  let '(g, t) := row in
  {| PartialRow.GSTR2B_S_No := S_No g;
     PartialRow.Tally_S_No := S_No t;
     PartialRow.Invoice_Number := Invoice_Number g;
     PartialRow.GSTR2B_GSTIN := GSTIN_of_Supplier g;
     PartialRow.Tally_GSTIN := GSTIN_of_Supplier t;
     PartialRow.GSTR2B_Invoice_Date := Invoice_Date g;
     PartialRow.Tally_Invoice_Date := Invoice_Date t;
     PartialRow.GSTR2B_Taxable_Value := Taxable_Value g;
     PartialRow.Tally_Taxable_Value := Taxable_Value t;
     PartialRow.Mismatch_Reason := mismatch_reason row |}.

(** [match_key_value] (lines 158-162). *)
Definition match_key_value (r : Row) : string :=
  Invoice_Number r ++ GSTIN_of_Supplier r ++ Date.key_text (Invoice_Date r).

Section Reconciliation.

(** [pd.to_datetime(cell, errors='coerce', dayfirst=True)]; [None] is NaT. *)
Variable to_datetime : string -> option Date.Timestamp.
(** [pd.to_numeric(cell, errors='coerce')] on an arbitrary cell. *)
Variable to_numeric_cell : string -> option Qc.
(** [str(x)] for a float [x]. *)
Variable float_str : Qc -> string.

(** Lines 134-148 on one row.  [strftime] of NaT is NaN. *)
Definition normalize_row (cols : list string) (r : list string) : Row :=
  {| S_No := cell cols r "S.No";
     GSTIN_of_Supplier := clean_value (cell cols r "GSTIN of Supplier");
     Trade_Legal_Name := cell cols r "Trade/Legal Name";
     Invoice_Number := clean_value (cell cols r "Invoice Number");
     Invoice_Date := Date.strftime <$> to_datetime (cell cols r "Invoice Date");
     Invoice_Value := Amount.normalize_amount (cell cols r "Invoice Value");
     Taxable_Value := Amount.normalize_amount (cell cols r "Taxable Value");
     IGST := Amount.fillna0 (to_numeric_cell (cell cols r "IGST"));
     CGST := Amount.fillna0 (to_numeric_cell (cell cols r "CGST"));
     SGST := Amount.fillna0 (to_numeric_cell (cell cols r "SGST")) |}.

Definition normalize (df : Frame) : list Row :=
  normalize_row (columns df) <$> body df.

(** [match_key_full] (lines 152-157).  The key columns are functions of
    the row, so they are computed where the script reads them. *)
Definition match_key_full (r : Row) : string :=
  Invoice_Number r ++ GSTIN_of_Supplier r ++ Date.key_text (Invoice_Date r)
  ++ float_str (Taxable_Value r).

Section Tiers.

Variables gstr2b_df tally_df : list Row.

Definition no_indices : Indices :=
  {| gstr2b_processed_indices := ∅; tally_processed_indices := ∅ |}.

(** Sheet 1 *)
Definition merged_full : list Merged := merge match_key_full gstr2b_df tally_df.

Definition after_sheet1 : list MatchRow.t * Indices :=
  sheet_loop (λ _, true) sheet1_entry merged_full ([], no_indices).

(** Sheet 4 *)
Definition potential_sheet4_gstr : list Row :=
  not_isin (gstr2b_processed_indices after_sheet1.2) gstr2b_df.
Definition potential_sheet4_tally : list Row :=
  not_isin (tally_processed_indices after_sheet1.2) tally_df.

Definition merged_value : list Merged :=
  merge match_key_value potential_sheet4_gstr potential_sheet4_tally.

Definition after_sheet4 : list MatchRow.t * Indices :=
  sheet_loop value_differs sheet4_entry merged_value ([], after_sheet1.2).

(** Sheet 5 *)
Definition gstr2b_remaining : list Row :=
  not_isin (gstr2b_processed_indices after_sheet4.2) gstr2b_df.
Definition tally_remaining : list Row :=
  not_isin (tally_processed_indices after_sheet4.2) tally_df.

Definition merged_invoice_only : list Merged :=
  merge Invoice_Number gstr2b_remaining tally_remaining.

Definition after_sheet5 : list PartialRow.t * Indices :=
  sheet_loop any_mismatch sheet5_entry merged_invoice_only ([], after_sheet4.2).

Definition sheet5_records : list PartialRow.t := after_sheet5.1.

(** Sheets 2 and 3, and the report. *)
Definition reconcile : Report :=
  {| sheet1 := after_sheet1.1;
     sheet2 := not_isin (gstr2b_processed_indices after_sheet5.2) gstr2b_df;
     sheet3 := not_isin (tally_processed_indices after_sheet5.2) tally_df;
     sheet4_df := after_sheet4.1;
     sheet5_final := drop_duplicates sheet5_records |}.

End Tiers.

(** The body of the button handler, from the two frames just read. *)
Definition run (gstr_file tally_file : Frame) : Outcome :=
  let gstr2b_df := normalize_dataframe_columns gstr_file in
  let tally_df := normalize_dataframe_columns tally_file in
  match check_columns required_columns gstr2b_df tally_df with
  | Some (f, col) => Stopped (missing_column_message f col)
  | None => Completed (reconcile (normalize gstr2b_df) (normalize tally_df))
  end.

End Reconciliation.

(** ** Instances used to run the model *)

(** An injective printing of amounts (the code of the canonical
    fraction, in decimal), standing for [str] of a float, which prints
    distinct numbers differently as well. *)
Definition code_str (q : Qc) : string := pretty (encode q).


(** ** Reading the report *)

Fixpoint count_true (bs : list bool) : nat :=
  match bs with
  | [] => 0
  | b :: rest => (if b then 1 else 0) + count_true rest
  end.

(** For an [S.No] of the GSTR2B frame: whether it occurs in the
    [GSTR2B S.No] column of Sheet 1 (Matched Invoices), Sheet 4 (Value
    Mismatched), Sheet 5 (Not Matching) and Sheet 2 (GSTR2B Only). *)
Definition gstr2b_categories (rep : Report) (x : string) : list bool :=
  [ bool_decide (x ∈ MatchRow.GSTR2B_S_No <$> sheet1 rep);
    bool_decide (x ∈ MatchRow.GSTR2B_S_No <$> sheet4_df rep);
    bool_decide (x ∈ PartialRow.GSTR2B_S_No <$> sheet5_final rep);
    bool_decide (x ∈ S_No <$> sheet2 rep) ].

(** The same for an [S.No] of the Tally frame, with Sheet 3 (Tally
    Only) last. *)
Definition tally_categories (rep : Report) (x : string) : list bool :=
  [ bool_decide (x ∈ MatchRow.Tally_S_No <$> sheet1 rep);
    bool_decide (x ∈ MatchRow.Tally_S_No <$> sheet4_df rep);
    bool_decide (x ∈ PartialRow.Tally_S_No <$> sheet5_final rep);
    bool_decide (x ∈ S_No <$> sheet3 rep) ].

(** The frame a [Source] names. *)
Definition frame_of (f : Source) (gstr2b_df tally_df : Frame) : Frame :=
  match f with GSTR2B => gstr2b_df | Tally => tally_df end.

(** The reason label in the words of the specification: the labels of
    the tests that hold, in the fixed order GSTIN, date, taxable value,
    joined by a comma and a space. *)
Definition reason_in_words (gstin date value : bool) : string :=
  Text.join ", "
    (snd <$> filter (λ p, p.1 = true)
       [(gstin, "GSTIN mismatch"); (date, "Date mismatch");
        (value, "Taxable Value mismatch")]).


(** Occurrences of the decimal point. *)
Definition count_points (s : string) : nat :=
  length (filter (λ c, c = "."%char) (Text.chars s)).

(** Whether [c] occurs in [s], and the last character of [s]. *)
Definition has_char (c : ascii) (s : string) : bool :=
  existsb (Ascii.eqb c) (Text.chars s).

Fixpoint last_char (s : string) : option ascii :=
  match s with
  | EmptyString => None
  | String c EmptyString => Some c
  | String _ r => last_char r
  end.

(** The pair of row numbers of a merged row, as [drop_duplicates] reads
    it off the record made from the row. *)
Definition row_ids (row : Merged) : string * string := (S_No row.1, S_No row.2).

(** ** The workbook *)

(** [df.empty] for a table with columns: it has no row. *)
Definition empty {A : Type} (df : list A) : bool :=
  match df with [] => true | _ => false end.

(** The sheets lines 337-347 write, in order: [to_excel] is called for
    a table only when it is not empty. *)
Definition written_sheets (rep : Report) : list string :=
  ((if empty (sheet1 rep) then [] else ["Matched Invoices"]) ++
   (if empty (sheet2 rep) then [] else ["GSTR2B Only"]) ++
   (if empty (sheet3 rep) then [] else ["Tally Only"]) ++
   (if empty (sheet4_df rep) then [] else ["Value Mismatched"]) ++
   (if empty (sheet5_final rep) then [] else ["Not Matching"]))%list.

(** ** Sample rows *)

(** A normalised row with the fields the matcher reads; the other
    amounts are 0. *)
Definition invoice (sno number gstin : string) (date : option string) (taxable : Qc) : Row :=
  {| S_No := sno; GSTIN_of_Supplier := gstin; Trade_Legal_Name := "ACME";
     Invoice_Number := number; Invoice_Date := date;
     Invoice_Value := taxable; Taxable_Value := taxable;
     IGST := Q2Qc 0; CGST := Q2Qc 0; SGST := Q2Qc 0 |}.




(** Normalised rows: the same invoice, with a parsed date or with an
    unparseable one, and taxable value 1000, 1000.01 or 1000.005. *)
Definition gstr_row : Row := invoice "1" "INV001" "GSTIN1" (Some "01-01-2024") (Q2Qc 1000).
Definition tally_row : Row := invoice "7" "INV001" "GSTIN1" (Some "01-01-2024") (Q2Qc 1000).
(** A second GSTR2B row of the same invoice, a Tally row 100 dearer, and
    two rows whose invoice number and GSTIN read the same once put side
    by side. *)
Definition gstr_row_again : Row :=
  invoice "2" "INV001" "GSTIN1" (Some "01-01-2024") (Q2Qc 1000).
Definition tally_row_dearer : Row :=
  invoice "7" "INV001" "GSTIN1" (Some "01-01-2024") (Q2Qc 1100).
Definition gstr_row_nan : Row := invoice "1" "INV001" "GSTIN1" None (Q2Qc 1000).
Definition tally_row_nan : Row := invoice "7" "INV001" "GSTIN1" None (Q2Qc 1000).
Definition tally_row_nan_half_cent : Row :=
  invoice "7" "INV001" "GSTIN1" None (Q2Qc (1000005 # 1000)).

(** * Properties *)

(** ** The normalisers on examples *)

Example clean_value_ex : clean_value "  inv-001a " = "INV-001A".
Proof. reflexivity. Qed.

Example normalize_amount_ex1 :
  Amount.normalize_amount "Rs 1,000.50" = Q2Qc (100050 # 100)
  /\ Amount.normalize_amount "Rs. 1,000.50" = Q2Qc 0
  /\ Amount.normalize_amount "-12" = Q2Qc 12.
Proof. repeat split; apply Qc_is_canon; vm_compute; reflexivity. Qed.

Example round2_ex : Amount.round2 (Q2Qc (1005 # 1000)) = Q2Qc (100 # 100)
  /\ Amount.round2 (Q2Qc (1015 # 1000)) = Q2Qc (102 # 100)
  /\ Amount.round2 (Q2Qc (1016 # 1000)) = Q2Qc (102 # 100).
Proof. repeat split; apply Qc_is_canon; vm_compute; reflexivity. Qed.

Example differs_ex : Amount.differs (Q2Qc (100001 # 100)) (Q2Qc 1000) = false
  /\ Amount.differs (Q2Qc (1000011 # 1000)) (Q2Qc 1000) = true.
Proof. split; vm_compute; reflexivity. Qed.

Example strftime_ex :
  Date.strftime {| Date.day := 1; Date.month := 2; Date.year := 2024 |} = "01-02-2024".
Proof. reflexivity. Qed.

Example reason_in_words_ex :
  reason_in_words true true false = "GSTIN mismatch, Date mismatch"
  /\ reason_in_words false false true = "Taxable Value mismatch"
  /\ reason_in_words true true true = "GSTIN mismatch, Date mismatch, Taxable Value mismatch".
Proof. repeat split. Qed.

(** The first scenarios of the specification: an identical pair is
    matched; 1000 against 1050 is a value mismatch of 50. *)
Example scenario_identical :
  sheet1 (reconcile code_str [gstr_row] [tally_row]) = [sheet1_entry (gstr_row, tally_row)]
  /\ sheet2 (reconcile code_str [gstr_row] [tally_row]) = []
  /\ sheet3 (reconcile code_str [gstr_row] [tally_row]) = []
  /\ sheet4_df (reconcile code_str [gstr_row] [tally_row]) = []
  /\ sheet5_final (reconcile code_str [gstr_row] [tally_row]) = [].
Proof. repeat split; vm_compute; reflexivity. Qed.

Example scenario_value_mismatch :
  MatchRow.Difference_Taxable_Value <$>
    sheet4_df (reconcile code_str [gstr_row]
                 [invoice "7" "INV001" "GSTIN1" (Some "01-01-2024") (Q2Qc 1050)])
  = [Amount.round2 (Q2Qc 50)].
Proof. vm_compute. reflexivity. Qed.

(** ** The building blocks *)

Section Blocks.

Lemma elem_of_merge (on : Row -> string) (left right : list Row) (a b : Row) :
  (a, b) ∈ merge on left right ↔ a ∈ left ∧ b ∈ right ∧ on a = on b.
Proof.
  unfold merge. rewrite list_elem_of_bind. split.
  - intros (x & Hin & Hx). apply list_elem_of_fmap in Hin as (y & Heq & Hy).
    injection Heq as -> ->. apply list_elem_of_filter in Hy as [? ?]. done.
  - intros (Ha & Hb & Hk). exists a. split; [|done].
    apply list_elem_of_fmap. exists b. split; [done|].
    apply list_elem_of_filter. done.
Qed.

Lemma elem_of_not_isin (s : gset string) (df : list Row) (r : Row) :
  r ∈ not_isin s df ↔ (S_No r ∉ s) ∧ r ∈ df.
Proof. unfold not_isin. by rewrite list_elem_of_filter. Qed.

Context {R : Type} (keep : Merged -> bool) (entry : Merged -> R).

Lemma sheet_loop_snoc merged row acc :
  sheet_loop keep entry (merged ++ [row]) acc =
  let acc' := sheet_loop keep entry merged acc in
  if keep row then ((acc'.1 ++ [entry row])%list, add_processed row acc'.2) else acc'.
Proof. unfold sheet_loop. rewrite foldl_app. reflexivity. Qed.

(** The rows a loop appends are the dictionaries of the rows that pass
    its test, in order. *)
Lemma sheet_loop_data merged data p :
  (sheet_loop keep entry merged (data, p)).1 =
  (data ++ (entry <$> filter (λ row, keep row) merged))%list.
Proof.
  induction merged as [|row merged IH] using rev_ind.
  - simpl. by rewrite app_nil_r.
  - rewrite sheet_loop_snoc. cbn zeta. rewrite list.filter_app, fmap_app.
    rewrite filter_cons, filter_nil.
    destruct (keep row) eqn:Hk.
    + rewrite decide_True by done. simpl. rewrite IH.
      by rewrite <- app_assoc.
    + rewrite decide_False by (simpl; tauto). simpl. rewrite IH.
      by rewrite app_nil_r.
Qed.

(** The [S.No] a loop adds on the GSTR2B side. *)
Lemma sheet_loop_gstr2b merged data p x :
  x ∈ gstr2b_processed_indices (sheet_loop keep entry merged (data, p)).2 ↔
  x ∈ gstr2b_processed_indices p ∨ ∃ row, row ∈ merged ∧ keep row = true ∧ S_No row.1 = x.
Proof.
  induction merged as [|row merged IH] using rev_ind.
  - simpl. split; [auto|]. intros [?|(row & Hin & _)]; [done|]. by apply elem_of_nil in Hin.
  - rewrite sheet_loop_snoc. cbn zeta. destruct (keep row) eqn:Hk; simpl.
    + rewrite elem_of_union, elem_of_singleton, IH. split.
      * intros [->|[?|(r & Hr & ? & ?)]]; [right; exists row|by left|right; exists r];
          rewrite elem_of_app, list_elem_of_singleton; auto.
      * intros [?|(r & Hr & Hkr & Hx)]; [auto|].
        apply elem_of_app in Hr as [Hr|Hr]; [right; right; eauto|].
        apply list_elem_of_singleton in Hr as ->. by left.
    + rewrite IH. split.
      * intros [?|(r & Hr & ? & ?)]; [by left|right; exists r].
        rewrite elem_of_app; auto.
      * intros [?|(r & Hr & Hkr & Hx)]; [auto|].
        apply elem_of_app in Hr as [Hr|Hr]; [right; eauto|].
        apply list_elem_of_singleton in Hr as ->. congruence.
Qed.

(** The [S.No] a loop adds on the Tally side. *)
Lemma sheet_loop_tally merged data p x :
  x ∈ tally_processed_indices (sheet_loop keep entry merged (data, p)).2 ↔
  x ∈ tally_processed_indices p ∨ ∃ row, row ∈ merged ∧ keep row = true ∧ S_No row.2 = x.
Proof.
  induction merged as [|row merged IH] using rev_ind.
  - simpl. split; [auto|]. intros [?|(row & Hin & _)]; [done|]. by apply elem_of_nil in Hin.
  - rewrite sheet_loop_snoc. cbn zeta. destruct (keep row) eqn:Hk; simpl.
    + rewrite elem_of_union, elem_of_singleton, IH. split.
      * intros [->|[?|(r & Hr & ? & ?)]]; [right; exists row|by left|right; exists r];
          rewrite elem_of_app, list_elem_of_singleton; auto.
      * intros [?|(r & Hr & Hkr & Hx)]; [auto|].
        apply elem_of_app in Hr as [Hr|Hr]; [right; right; eauto|].
        apply list_elem_of_singleton in Hr as ->. by left.
    + rewrite IH. split.
      * intros [?|(r & Hr & ? & ?)]; [by left|right; exists r].
        rewrite elem_of_app; auto.
      * intros [?|(r & Hr & Hkr & Hx)]; [auto|].
        apply elem_of_app in Hr as [Hr|Hr]; [right; eauto|].
        apply list_elem_of_singleton in Hr as ->. congruence.
Qed.

End Blocks.

(** ** What each stage of the matcher holds *)

Section Stages.

Variable float_str : Qc -> string.
Variables gstr2b_df tally_df : list Row.

Let P1 := (after_sheet1 float_str gstr2b_df tally_df).2.
Let P4 := (after_sheet4 float_str gstr2b_df tally_df).2.
Let P5 := (after_sheet5 float_str gstr2b_df tally_df).2.

Lemma filter_all_true (l : list Merged) : filter (λ row, (λ _ : Merged, true) row) l = l.
Proof.
  induction l as [|x l IH]; [done|].
  rewrite filter_cons, decide_True by done. by rewrite IH.
Qed.

Lemma sheet1_rows :
  (after_sheet1 float_str gstr2b_df tally_df).1 =
  sheet1_entry <$> merged_full float_str gstr2b_df tally_df.
Proof.
  unfold after_sheet1. rewrite sheet_loop_data. simpl. by rewrite filter_all_true.
Qed.

Lemma sheet4_rows :
  (after_sheet4 float_str gstr2b_df tally_df).1 =
  sheet4_entry <$> filter (λ row, value_differs row) (merged_value float_str gstr2b_df tally_df).
Proof. unfold after_sheet4. by rewrite sheet_loop_data. Qed.

Lemma sheet5_rows :
  sheet5_records float_str gstr2b_df tally_df =
  sheet5_entry <$> filter (λ row, any_mismatch row) (merged_invoice_only float_str gstr2b_df tally_df).
Proof. unfold sheet5_records, after_sheet5. by rewrite sheet_loop_data. Qed.

Lemma P1_gstr2b x :
  x ∈ gstr2b_processed_indices P1 ↔
  ∃ row, row ∈ merged_full float_str gstr2b_df tally_df ∧ S_No row.1 = x.
Proof.
  unfold P1, after_sheet1. rewrite sheet_loop_gstr2b. simpl. split.
  - intros [H|(row & ? & _ & ?)]; [by apply not_elem_of_empty in H|eauto].
  - intros (row & ? & ?). right. eauto.
Qed.

Lemma P1_tally x :
  x ∈ tally_processed_indices P1 ↔
  ∃ row, row ∈ merged_full float_str gstr2b_df tally_df ∧ S_No row.2 = x.
Proof.
  unfold P1, after_sheet1. rewrite sheet_loop_tally. simpl. split.
  - intros [H|(row & ? & _ & ?)]; [by apply not_elem_of_empty in H|eauto].
  - intros (row & ? & ?). right. eauto.
Qed.

Lemma P4_gstr2b x :
  x ∈ gstr2b_processed_indices P4 ↔
  x ∈ gstr2b_processed_indices P1 ∨
  ∃ row, row ∈ merged_value float_str gstr2b_df tally_df ∧ value_differs row = true ∧ S_No row.1 = x.
Proof. unfold P4, after_sheet4. by rewrite sheet_loop_gstr2b. Qed.

Lemma P4_tally x :
  x ∈ tally_processed_indices P4 ↔
  x ∈ tally_processed_indices P1 ∨
  ∃ row, row ∈ merged_value float_str gstr2b_df tally_df ∧ value_differs row = true ∧ S_No row.2 = x.
Proof. unfold P4, after_sheet4. by rewrite sheet_loop_tally. Qed.

Lemma P5_gstr2b x :
  x ∈ gstr2b_processed_indices P5 ↔
  x ∈ gstr2b_processed_indices P4 ∨
  ∃ row, row ∈ merged_invoice_only float_str gstr2b_df tally_df ∧ any_mismatch row = true ∧ S_No row.1 = x.
Proof. unfold P5, after_sheet5. by rewrite sheet_loop_gstr2b. Qed.

Lemma P5_tally x :
  x ∈ tally_processed_indices P5 ↔
  x ∈ tally_processed_indices P4 ∨
  ∃ row, row ∈ merged_invoice_only float_str gstr2b_df tally_df ∧ any_mismatch row = true ∧ S_No row.2 = x.
Proof. unfold P5, after_sheet5. by rewrite sheet_loop_tally. Qed.

(** Candidates of a later sheet carry no [S.No] processed before. *)
Lemma merged_value_fresh row :
  row ∈ merged_value float_str gstr2b_df tally_df →
  (S_No row.1 ∉ gstr2b_processed_indices P1) ∧ (S_No row.2 ∉ tally_processed_indices P1).
Proof.
  destruct row as [a b]. unfold merged_value. rewrite elem_of_merge.
  unfold potential_sheet4_gstr, potential_sheet4_tally. rewrite !elem_of_not_isin.
  simpl. tauto.
Qed.

Lemma merged_invoice_only_fresh row :
  row ∈ merged_invoice_only float_str gstr2b_df tally_df →
  (S_No row.1 ∉ gstr2b_processed_indices P4) ∧ (S_No row.2 ∉ tally_processed_indices P4).
Proof.
  destruct row as [a b]. unfold merged_invoice_only. rewrite elem_of_merge.
  unfold gstr2b_remaining, tally_remaining. rewrite !elem_of_not_isin.
  simpl. tauto.
Qed.

End Stages.

(** ** [drop_duplicates] *)

Section DropDuplicates.

Implicit Types (records : list PartialRow.t) (seen : list (string * string)).

Lemma drop_duplicates_from_elem seen records r :
  r ∈ drop_duplicates_from seen records → r ∈ records ∧ PartialRow.ids r ∉ seen.
Proof.
  revert seen. induction records as [|x records IH]; intros seen; simpl.
  - by intros ?%elem_of_nil.
  - case_bool_decide as Hx.
    + intros [? ?]%IH. split; [by apply elem_of_cons; right|done].
    + intros [->|Hr]%elem_of_cons; [split; [by apply elem_of_cons; left|done]|].
      apply IH in Hr as [? Hn]. split; [by apply elem_of_cons; right|].
      intros ?. apply Hn. by apply elem_of_cons; right.
Qed.

Lemma drop_duplicates_from_NoDup seen records :
  NoDup (PartialRow.ids <$> drop_duplicates_from seen records).
Proof.
  revert seen. induction records as [|x records IH]; intros seen; simpl.
  - constructor.
  - case_bool_decide as Hx; [apply IH|].
    rewrite fmap_cons. constructor; [|apply IH].
    intros (r & Heq & Hr)%list_elem_of_fmap.
    apply drop_duplicates_from_elem in Hr as [_ Hn].
    apply Hn. rewrite Heq. by apply elem_of_cons; left.
Qed.

(** A row none of whose predecessors has its combination is kept. *)
Lemma drop_duplicates_from_first seen before r after :
  PartialRow.ids r ∉ seen →
  PartialRow.ids r ∉ PartialRow.ids <$> before →
  r ∈ drop_duplicates_from seen (before ++ r :: after).
Proof.
  revert seen. induction before as [|x before IH]; intros seen Hs Hb; simpl.
  - rewrite bool_decide_eq_false_2 by done. by apply elem_of_cons; left.
  - rewrite fmap_cons, not_elem_of_cons in Hb. destruct Hb as [Hne Hb].
    case_bool_decide as Hx; [by apply IH|].
    apply elem_of_cons; right. apply IH; [|done].
    rewrite not_elem_of_cons. done.
Qed.

Lemma drop_duplicates_from_sublist seen records :
  sublist (drop_duplicates_from seen records) records.
Proof.
  revert seen. induction records as [|x records IH]; intros seen; simpl.
  - constructor.
  - case_bool_decide; [by apply sublist_cons|by apply sublist_skip].
Qed.

(** Every combination not seen before survives. *)
Lemma drop_duplicates_from_ids seen records r :
  r ∈ records → PartialRow.ids r ∉ seen →
  PartialRow.ids r ∈ PartialRow.ids <$> drop_duplicates_from seen records.
Proof.
  revert seen. induction records as [|x records IH]; intros seen Hr Hs; simpl.
  - by apply elem_of_nil in Hr.
  - apply elem_of_cons in Hr as [->|Hr].
    + rewrite bool_decide_eq_false_2 by done. rewrite fmap_cons.
      by apply elem_of_cons; left.
    + case_bool_decide as Hx; [by apply IH|].
      rewrite fmap_cons. destruct (decide (PartialRow.ids r = PartialRow.ids x)) as [->|Hne].
      * by apply elem_of_cons; left.
      * apply elem_of_cons; right. apply IH; [done|].
        rewrite not_elem_of_cons. done.
Qed.

Lemma drop_duplicates_gstr2b records x :
  x ∈ PartialRow.GSTR2B_S_No <$> drop_duplicates records ↔
  x ∈ PartialRow.GSTR2B_S_No <$> records.
Proof.
  rewrite !list_elem_of_fmap. split.
  - intros (r & -> & Hr). apply drop_duplicates_from_elem in Hr as [? _]. eauto.
  - intros (r & -> & Hr).
    pose proof (drop_duplicates_from_ids [] records r Hr) as H.
    apply list_elem_of_fmap in H as (r' & Heq & Hr'); [|by intros ?%elem_of_nil].
    exists r'. split; [|done]. by injection Heq.
Qed.

Lemma drop_duplicates_tally records x :
  x ∈ PartialRow.Tally_S_No <$> drop_duplicates records ↔
  x ∈ PartialRow.Tally_S_No <$> records.
Proof.
  rewrite !list_elem_of_fmap. split.
  - intros (r & -> & Hr). apply drop_duplicates_from_elem in Hr as [? _]. eauto.
  - intros (r & -> & Hr).
    pose proof (drop_duplicates_from_ids [] records r Hr) as H.
    apply list_elem_of_fmap in H as (r' & Heq & Hr'); [|by intros ?%elem_of_nil].
    exists r'. split; [|done]. by injection Heq.
Qed.

End DropDuplicates.

(** ** The four categories of a side *)

Lemma count_true_exactly_one (p1 e4 e5 : Prop) (b1 b4 b5 b2 : bool) :
  (b1 = true ↔ p1) → (b4 = true ↔ e4) → (b5 = true ↔ e5) →
  (b2 = true ↔ ¬ (p1 ∨ e4 ∨ e5)) →
  (e4 → ¬ p1) → (e5 → ¬ (p1 ∨ e4)) →
  count_true [b1; b4; b5; b2] = 1.
Proof.
  intros H1 H4 H5 H2 D4 D5.
  destruct b1, b4, b5, b2; simpl; try reflexivity; exfalso;
    repeat match goal with
    | H : true = true ↔ _ |- _ => apply proj1 in H; specialize (H eq_refl)
    | H : false = true ↔ _ |- _ =>
        apply proj2 in H;
        assert (¬ _) by (let K := fresh in intros K; specialize (H K); discriminate);
        clear H
    end; tauto.
Qed.

Section Categories.

Variable float_str : Qc -> string.
Variables gstr2b_df tally_df : list Row.

Let rep := reconcile float_str gstr2b_df tally_df.
Let P1 := (after_sheet1 float_str gstr2b_df tally_df).2.
Let P4 := (after_sheet4 float_str gstr2b_df tally_df).2.
Let P5 := (after_sheet5 float_str gstr2b_df tally_df).2.

Lemma sheet1_gstr2b x :
  x ∈ MatchRow.GSTR2B_S_No <$> sheet1 rep ↔ x ∈ gstr2b_processed_indices P1.
Proof.
  unfold rep, P1. simpl. rewrite sheet1_rows, P1_gstr2b, <- list_fmap_compose.
  rewrite list_elem_of_fmap. split.
  - intros ([a b] & -> & ?). by exists (a, b).
  - intros ([a b] & ? & <-). by exists (a, b).
Qed.

Lemma sheet1_tally x :
  x ∈ MatchRow.Tally_S_No <$> sheet1 rep ↔ x ∈ tally_processed_indices P1.
Proof.
  unfold rep, P1. simpl. rewrite sheet1_rows, P1_tally, <- list_fmap_compose.
  rewrite list_elem_of_fmap. split.
  - intros ([a b] & -> & ?). by exists (a, b).
  - intros ([a b] & ? & <-). by exists (a, b).
Qed.

Lemma sheet4_gstr2b x :
  x ∈ MatchRow.GSTR2B_S_No <$> sheet4_df rep ↔
  ∃ row, row ∈ merged_value float_str gstr2b_df tally_df ∧ value_differs row = true ∧ S_No row.1 = x.
Proof.
  unfold rep. simpl. rewrite sheet4_rows, <- list_fmap_compose.
  rewrite list_elem_of_fmap. split.
  - intros ([a b] & -> & [Hk ?]%list_elem_of_filter). exists (a, b).
    apply Is_true_true in Hk. done.
  - intros ([a b] & ? & Hk & <-). exists (a, b). split; [done|].
    apply list_elem_of_filter. split; [by apply Is_true_true|done].
Qed.

Lemma sheet4_tally x :
  x ∈ MatchRow.Tally_S_No <$> sheet4_df rep ↔
  ∃ row, row ∈ merged_value float_str gstr2b_df tally_df ∧ value_differs row = true ∧ S_No row.2 = x.
Proof.
  unfold rep. simpl. rewrite sheet4_rows, <- list_fmap_compose.
  rewrite list_elem_of_fmap. split.
  - intros ([a b] & -> & [Hk ?]%list_elem_of_filter). exists (a, b).
    apply Is_true_true in Hk. done.
  - intros ([a b] & ? & Hk & <-). exists (a, b). split; [done|].
    apply list_elem_of_filter. split; [by apply Is_true_true|done].
Qed.

Lemma sheet5_gstr2b x :
  x ∈ PartialRow.GSTR2B_S_No <$> sheet5_final rep ↔
  ∃ row, row ∈ merged_invoice_only float_str gstr2b_df tally_df ∧ any_mismatch row = true ∧ S_No row.1 = x.
Proof.
  unfold rep. simpl. rewrite drop_duplicates_gstr2b, sheet5_rows, <- list_fmap_compose.
  rewrite list_elem_of_fmap. split.
  - intros ([a b] & -> & [Hk ?]%list_elem_of_filter). exists (a, b).
    apply Is_true_true in Hk. done.
  - intros ([a b] & ? & Hk & <-). exists (a, b). split; [done|].
    apply list_elem_of_filter. split; [by apply Is_true_true|done].
Qed.

Lemma sheet5_tally x :
  x ∈ PartialRow.Tally_S_No <$> sheet5_final rep ↔
  ∃ row, row ∈ merged_invoice_only float_str gstr2b_df tally_df ∧ any_mismatch row = true ∧ S_No row.2 = x.
Proof.
  unfold rep. simpl. rewrite drop_duplicates_tally, sheet5_rows, <- list_fmap_compose.
  rewrite list_elem_of_fmap. split.
  - intros ([a b] & -> & [Hk ?]%list_elem_of_filter). exists (a, b).
    apply Is_true_true in Hk. done.
  - intros ([a b] & ? & Hk & <-). exists (a, b). split; [done|].
    apply list_elem_of_filter. split; [by apply Is_true_true|done].
Qed.

Lemma sheet2_ids x :
  x ∈ S_No <$> sheet2 rep ↔ (x ∉ gstr2b_processed_indices P5) ∧ x ∈ S_No <$> gstr2b_df.
Proof.
  unfold rep, P5. simpl. rewrite !list_elem_of_fmap. split.
  - intros (a & -> & [? ?]%elem_of_not_isin). eauto.
  - intros (? & a & -> & ?). exists a. by rewrite elem_of_not_isin.
Qed.

Lemma sheet3_ids x :
  x ∈ S_No <$> sheet3 rep ↔ (x ∉ tally_processed_indices P5) ∧ x ∈ S_No <$> tally_df.
Proof.
  unfold rep, P5. simpl. rewrite !list_elem_of_fmap. split.
  - intros (a & -> & [? ?]%elem_of_not_isin). eauto.
  - intros (? & a & -> & ?). exists a. by rewrite elem_of_not_isin.
Qed.

(** An [S.No] of the GSTR2B frame is in exactly one of the four sheets
    of its side. *)
Lemma gstr2b_one_category a :
  a ∈ gstr2b_df → count_true (gstr2b_categories rep (S_No a)) = 1.
Proof.
  intros Ha. unfold gstr2b_categories.
  eapply (count_true_exactly_one (S_No a ∈ gstr2b_processed_indices P1)).
  - rewrite bool_decide_eq_true. apply sheet1_gstr2b.
  - rewrite bool_decide_eq_true. apply sheet4_gstr2b.
  - rewrite bool_decide_eq_true. apply sheet5_gstr2b.
  - rewrite bool_decide_eq_true, sheet2_ids.
    unfold P5. rewrite P5_gstr2b, P4_gstr2b. fold P1.
    split; [intros [? _]; tauto|]. intros ?. split; [tauto|].
    by apply list_elem_of_fmap_2.
  - intros (row & Hr & _ & <-). by apply merged_value_fresh in Hr as [? _].
  - intros (row & Hr & _ & Hx). apply merged_invoice_only_fresh in Hr as [Hn _].
    rewrite Hx in Hn. intros ?. apply Hn. fold P4. unfold P4. rewrite P4_gstr2b. done.
Qed.

Lemma tally_one_category b :
  b ∈ tally_df → count_true (tally_categories rep (S_No b)) = 1.
Proof.
  intros Hb. unfold tally_categories.
  eapply (count_true_exactly_one (S_No b ∈ tally_processed_indices P1)).
  - rewrite bool_decide_eq_true. apply sheet1_tally.
  - rewrite bool_decide_eq_true. apply sheet4_tally.
  - rewrite bool_decide_eq_true. apply sheet5_tally.
  - rewrite bool_decide_eq_true, sheet3_ids.
    unfold P5. rewrite P5_tally, P4_tally. fold P1.
    split; [intros [? _]; tauto|]. intros ?. split; [tauto|].
    by apply list_elem_of_fmap_2.
  - intros (row & Hr & _ & <-). by apply merged_value_fresh in Hr as [_ ?].
  - intros (row & Hr & _ & Hx). apply merged_invoice_only_fresh in Hr as [_ Hn].
    rewrite Hx in Hn. intros ?. apply Hn. fold P4. unfold P4. rewrite P4_tally. done.
Qed.



End Categories.

(** ** Text of the keys *)

Section KeyText.


Lemma append_empty_r (s : string) : s ++ "" = s.
Proof.
  induction s as [|c s IH]; [done|].
  change (String c s ++ "") with (String c (s ++ "")). by rewrite IH.
Qed.

Lemma chars_app (s t : string) : Text.chars (s ++ t) = (Text.chars s ++ Text.chars t)%list.
Proof. induction s as [|c s IH]; simpl; [done|]. by rewrite IH. Qed.


Lemma keep_chars_app keep (s t : string) :
  Text.keep_chars keep (s ++ t) = Text.keep_chars keep s ++ Text.keep_chars keep t.
Proof.
  induction s as [|c s IH]; simpl; [done|].
  destruct (keep c); simpl; by rewrite IH.
Qed.

Lemma has_char_keep_chars c keep (s : string) :
  has_char c s = false → has_char c (Text.keep_chars keep s) = false.
Proof.
  unfold has_char. induction s as [|x s IH]; simpl; [done|].
  intros [? ?]%orb_false_iff. destruct (keep x); simpl; [|by apply IH].
  apply orb_false_iff. split; [done|by apply IH].
Qed.

Lemma last_char_app (s t : string) : t ≠ "" → last_char (s ++ t) = last_char t.
Proof.
  intros Ht. induction s as [|c s IH]; simpl; [done|].
  rewrite IH. destruct (s ++ t) eqn:E; [|done].
  destruct s; simpl in E; [done|discriminate].
Qed.




Lemma digit_char_cases n :
  Date.digit_char n ∈ ["0"; "1"; "2"; "3"; "4"; "5"; "6"; "7"; "8"; "9"]%char.
Proof.
  unfold Date.digit_char. pose proof (Nat.mod_upper_bound n 10) as Hlt.
  destruct (n mod 10) as [|[|[|[|[|[|[|[|[|[|k]]]]]]]]]]; [..|lia]; simpl;
    rewrite !elem_of_cons; tauto.
Qed.

Lemma digit_char_not c n :
  c ∉ ["0"; "1"; "2"; "3"; "4"; "5"; "6"; "7"; "8"; "9"]%char →
  Ascii.eqb c (Date.digit_char n) = false.
Proof.
  intros Hc. apply Ascii.eqb_neq. intros ->. apply Hc, digit_char_cases.
Qed.


Lemma not_a_digit_dash : "-"%char ∉ ["0"; "1"; "2"; "3"; "4"; "5"; "6"; "7"; "8"; "9"]%char.
Proof. rewrite !elem_of_cons, elem_of_nil. intros H. repeat destruct H as [H|H]; done. Qed.

Lemma not_a_digit_n : "n"%char ∉ ["0"; "1"; "2"; "3"; "4"; "5"; "6"; "7"; "8"; "9"]%char.
Proof. rewrite !elem_of_cons, elem_of_nil. intros H. repeat destruct H as [H|H]; done. Qed.

Local Arguments Date.digit_char : simpl never.

Lemma remove_dashes_digit n (s : string) :
  Text.remove_dashes (String (Date.digit_char n) s) =
  String (Date.digit_char n) (Text.remove_dashes s).
Proof.
  unfold Text.remove_dashes. cbn [Text.keep_chars].
  rewrite Ascii.eqb_sym, (digit_char_not "-") by apply not_a_digit_dash. done.
Qed.

Lemma remove_dashes_app (s t : string) :
  Text.remove_dashes (s ++ t) = Text.remove_dashes s ++ Text.remove_dashes t.
Proof. apply keep_chars_app. Qed.

Lemma remove_dashes_two_digits n : Text.remove_dashes (Date.two_digits n) = Date.two_digits n.
Proof. unfold Date.two_digits. by rewrite !remove_dashes_digit. Qed.

Lemma remove_dashes_four_digits n : Text.remove_dashes (Date.four_digits n) = Date.four_digits n.
Proof. unfold Date.four_digits. by rewrite !remove_dashes_digit. Qed.

(** The key text of a parsed date: its eight digits. *)
Lemma key_text_strftime t :
  Date.key_text (Some (Date.strftime t)) =
  Date.two_digits (Date.day t) ++ Date.two_digits (Date.month t) ++ Date.four_digits (Date.year t).
Proof.
  unfold Date.key_text, Date.astype_str, Date.strftime.
  rewrite !remove_dashes_app, !remove_dashes_two_digits, remove_dashes_four_digits.
  done.
Qed.




Lemma key_text_strftime_last t :
  last_char (Date.key_text (Some (Date.strftime t))) = Some (Date.digit_char (Date.year t)).
Proof.
  rewrite key_text_strftime, !last_char_app by done. done.
Qed.

Lemma key_text_nan_ne t : Date.key_text None ≠ Date.key_text (Some (Date.strftime t)).
Proof.
  intros H. apply (f_equal last_char) in H. rewrite key_text_strftime_last in H.
  injection H as H. apply Ascii.eqb_eq in H.
  by rewrite (digit_char_not "n") in H by apply not_a_digit_n.
Qed.

End KeyText.

(** ** Parsing amounts *)

Section Parsing.

Lemma chars_keep_chars keep (s : string) :
  Text.chars (Text.keep_chars keep s) = filter (λ c, keep c = true) (Text.chars s).
Proof.
  induction s as [|c s IH]; [done|]. cbn [Text.keep_chars Text.chars].
  rewrite filter_cons. case_decide as Hk.
  - rewrite Hk. simpl. by rewrite IH.
  - apply not_true_is_false in Hk. by rewrite Hk.
Qed.

Lemma count_points_app (s t : string) :
  count_points (s ++ t) = count_points s + count_points t.
Proof. unfold count_points. by rewrite chars_app, list.filter_app, length_app. Qed.

Lemma count_points_digits (s : string) : Amount.all_digits s = true → count_points s = 0.
Proof.
  unfold Amount.all_digits, count_points. induction s as [|c s IH]; simpl; [done|].
  intros [Hc Hs]%andb_true_iff. rewrite filter_cons, decide_False; [by apply IH|].
  intros ->. discriminate.
Qed.

Lemma span_digits_spec (s : string) :
  s = (Amount.span_digits s).1 ++ (Amount.span_digits s).2 ∧
  Amount.all_digits (Amount.span_digits s).1 = true.
Proof.
  induction s as [|c s [IH1 IH2]]; simpl; [done|].
  destruct (Text.is_digit c) eqn:Hc; [|done].
  destruct (Amount.span_digits s) as [d rest]. simpl in *.
  split; [rewrite IH1 at 1; reflexivity|].
  unfold Amount.all_digits in *. simpl. by rewrite Hc.
Qed.

Lemma span_digits_digits (ip rest : string) :
  Amount.all_digits ip = true →
  (Amount.span_digits rest).1 = "" →
  Amount.span_digits (ip ++ rest) = (ip, rest).
Proof.
  unfold Amount.all_digits. induction ip as [|c ip IH].
  - intros _ H. change ("" ++ rest) with rest.
    pose proof (span_digits_spec rest) as [E _].
    destruct (Amount.span_digits rest) as [d r]. simpl in *. subst d.
    change ("" ++ r) with r in E. by subst.
  - simpl. intros [Hc Hs]%andb_true_iff Hr.
    change (String c ip ++ rest) with (String c (ip ++ rest)).
    simpl. rewrite Hc, IH by done. done.
Qed.

(** A parse succeeds only on text with at most one point. *)
Lemma to_numeric_Some_points (s : string) v :
  Amount.to_numeric s = Some v → count_points s <= 1.
Proof.
  unfold Amount.to_numeric. pose proof (span_digits_spec s) as [E Hd].
  destruct (Amount.span_digits s) as [ip rest]. simpl in *.
  destruct rest as [|c fp].
  - intros _. rewrite E, count_points_app, count_points_digits by done.
    unfold count_points. simpl. lia.
  - destruct (Ascii.eqb c ".") eqn:Hc; [|done].
    destruct (Amount.all_digits fp) eqn:Hf; [|done]. intros _.
    rewrite E, count_points_app, count_points_digits by done.
    change (String c fp) with (String c "" ++ fp).
    rewrite count_points_app, (count_points_digits fp) by done.
    unfold count_points. simpl. rewrite filter_cons. case_decide; simpl; lia.
Qed.

Lemma to_numeric_integer (ip : string) :
  Amount.all_digits ip = true → ip ≠ "" →
  Amount.to_numeric ip = Some (Q2Qc (inject_Z (Z.of_N (Amount.digits_to_N 0 ip)))).
Proof.
  intros Hd Hne. unfold Amount.to_numeric.
  pose proof (span_digits_digits ip "" Hd eq_refl) as E.
  rewrite append_empty_r in E. rewrite E. by destruct ip.
Qed.

Lemma to_numeric_decimal (ip fp : string) :
  Amount.all_digits ip = true → Amount.all_digits fp = true → ip ≠ "" ∨ fp ≠ "" →
  Amount.to_numeric (ip ++ "." ++ fp) =
  Some (Q2Qc (Z.of_N (Amount.digits_to_N 0 (ip ++ fp))
              # Z.to_pos (10 ^ Z.of_nat (String.length fp)))).
Proof.
  intros Hi Hf Hne. unfold Amount.to_numeric.
  change ("." ++ fp) with (String "."%char fp).
  rewrite (span_digits_digits ip (String "."%char fp) Hi eq_refl). simpl. rewrite Hf.
  destruct ip, fp; simpl; try done. by destruct Hne.
Qed.

End Parsing.

(** * The claims *)

Section Claims.

Variable to_datetime : string -> option Date.Timestamp.
Variable to_numeric_cell : string -> option Qc.
Variable float_str : Qc -> string.



Lemma first_of_exactly_one (b4 b5 b2 : bool) :
  count_true [true; b4; b5; b2] = 1 → [true; b4; b5; b2] = [true; false; false; false].
Proof. by destruct b4, b5, b2. Qed.

(** C4. Precedence: a GSTR2B row and a Tally row with equal full keys
    are both processed by the Sheet 1 loop; their [S.No] occur in Sheet
    1 and in no later sheet (Value Mismatched, Not Matching, GSTR2B
    Only, Tally Only). *)
Theorem full_key_partner_only_in_sheet1 gstr2b_df tally_df a b :
  a ∈ gstr2b_df → b ∈ tally_df →
  match_key_full float_str a = match_key_full float_str b →
  S_No a ∈ gstr2b_processed_indices (after_sheet1 float_str gstr2b_df tally_df).2 ∧
  S_No b ∈ tally_processed_indices (after_sheet1 float_str gstr2b_df tally_df).2 ∧
  gstr2b_categories (reconcile float_str gstr2b_df tally_df) (S_No a)
    = [true; false; false; false] ∧
  tally_categories (reconcile float_str gstr2b_df tally_df) (S_No b)
    = [true; false; false; false].
Proof.
  intros Ha Hb Hk.
  assert (Hm : (a, b) ∈ merged_full float_str gstr2b_df tally_df).
  { unfold merged_full. by rewrite elem_of_merge. }
  assert (HA : S_No a ∈ gstr2b_processed_indices (after_sheet1 float_str gstr2b_df tally_df).2).
  { rewrite P1_gstr2b. by exists (a, b). }
  assert (HB : S_No b ∈ tally_processed_indices (after_sheet1 float_str gstr2b_df tally_df).2).
  { rewrite P1_tally. by exists (a, b). }
  repeat split; [done..| |].
  - pose proof (gstr2b_one_category float_str gstr2b_df tally_df a Ha) as H1.
    unfold gstr2b_categories in *.
    rewrite (bool_decide_eq_true_2 _ (proj2 (sheet1_gstr2b _ _ _ _) HA)) in *.
    by apply first_of_exactly_one.
  - pose proof (tally_one_category float_str gstr2b_df tally_df b Hb) as H1.
    unfold tally_categories in *.
    rewrite (bool_decide_eq_true_2 _ (proj2 (sheet1_tally _ _ _ _) HB)) in *.
    by apply first_of_exactly_one.
Qed.


(** C6. Dedup: the Not Matching table holds no two rows with the same
    ([GSTR2B S.No], [Tally S.No]) combination; it is the list of
    collected records with rows removed, and a record none of whose
    predecessors carries its combination, the first occurrence, is kept. *)
Theorem not_matching_no_duplicate_pairs gstr2b_df tally_df :
  NoDup (PartialRow.ids <$> sheet5_final (reconcile float_str gstr2b_df tally_df)) ∧
  sublist (sheet5_final (reconcile float_str gstr2b_df tally_df))
          (sheet5_records float_str gstr2b_df tally_df) ∧
  (∀ before r after,
     sheet5_records float_str gstr2b_df tally_df = (before ++ r :: after)%list →
     PartialRow.ids r ∉ PartialRow.ids <$> before →
     r ∈ sheet5_final (reconcile float_str gstr2b_df tally_df)).
Proof.
  simpl. unfold drop_duplicates. split; [apply drop_duplicates_from_NoDup|].
  split; [apply drop_duplicates_from_sublist|].
  intros before r after -> Hb. apply drop_duplicates_from_first; [|done].
  by intros ?%elem_of_nil.
Qed.




Lemma mismatch_reason_in_words row :
  mismatch_reason row =
  reason_in_words (is_gstin_mismatch row) (is_date_mismatch row) (is_taxable_value_mismatch row).
Proof.
  unfold mismatch_reason, mismatch_reason_parts, reason_in_words.
  by destruct (is_gstin_mismatch row), (is_date_mismatch row), (is_taxable_value_mismatch row).
Qed.










(** C8 (as amended). Normalisation of [Invoice Value] and [Taxable
    Value]: the characters other than digits and decimal points are
    deleted, every point being kept; what remains is parsed as a
    decimal number (an integer part, or an integer part, a point and a
    fraction, one of the two parts possibly empty); when nothing
    remains, or the parse fails, as it does whenever two or more points
    remain, the value is 0.  The function is total: no cell makes it
    fail. *)
Theorem amount_normalization cell :
  Text.chars (Amount.strip_non_numeric cell) =
    filter (λ c, Text.is_digit c || Ascii.eqb c "." = true) (Text.chars cell) ∧
  (Amount.strip_non_numeric cell = "" → Amount.normalize_amount cell = Q2Qc 0) ∧
  (Amount.to_numeric (Amount.strip_non_numeric cell) = None →
     Amount.normalize_amount cell = Q2Qc 0) ∧
  (2 <= count_points (Amount.strip_non_numeric cell) →
     Amount.normalize_amount cell = Q2Qc 0) ∧
  (∀ ip, Amount.all_digits ip = true → ip ≠ "" →
     Amount.strip_non_numeric cell = ip →
     Amount.normalize_amount cell = Q2Qc (inject_Z (Z.of_N (Amount.digits_to_N 0 ip)))) ∧
  (∀ ip fp, Amount.all_digits ip = true → Amount.all_digits fp = true →
     ip ≠ "" ∨ fp ≠ "" →
     Amount.strip_non_numeric cell = ip ++ "." ++ fp →
     Amount.normalize_amount cell =
       Q2Qc (Z.of_N (Amount.digits_to_N 0 (ip ++ fp))
             # Z.to_pos (10 ^ Z.of_nat (String.length fp)))).
Proof.
  unfold Amount.normalize_amount, Amount.fillna0.
  split; [apply chars_keep_chars|]. split; [by intros ->|].
  split; [by intros ->|]. split; [|split].
  - intros Hp. destruct (Amount.to_numeric _) as [v|] eqn:E; [|done].
    apply to_numeric_Some_points in E. lia.
  - intros ip Hd Hne ->. by rewrite to_numeric_integer.
  - intros ip fp Hi Hf Hne ->. by rewrite to_numeric_decimal.
Qed.

End Claims.

(** ** The claims on sample data *)

Section Samples.






(** Two rows with equal full keys, among others. *)
Lemma full_key_partner_only_in_sheet1_witness :
  gstr_row ∈ [gstr_row_nan; gstr_row] ∧ tally_row ∈ [tally_row] ∧
  match_key_full code_str gstr_row = match_key_full code_str tally_row ∧
  gstr2b_categories (reconcile code_str [gstr_row_nan; gstr_row] [tally_row]) (S_No gstr_row)
    = [true; false; false; false] ∧
  tally_categories (reconcile code_str [gstr_row_nan; gstr_row] [tally_row]) (S_No tally_row)
    = [true; false; false; false].
Proof.
  assert (Ha : gstr_row ∈ [gstr_row_nan; gstr_row]) by (right; left).
  assert (Hb : tally_row ∈ [tally_row]) by left.
  assert (Hk : match_key_full code_str gstr_row = match_key_full code_str tally_row)
    by reflexivity.
  pose proof (full_key_partner_only_in_sheet1 code_str _ _ _ _ Ha Hb Hk) as (_ & _ & H1 & H2).
  exact (conj Ha (conj Hb (conj Hk (conj H1 H2)))).
Defined.






(** ** Where the specification departs from the script *)



(** C8, counterexample.  Of [Rs. 1,000.50] two points remain, not a
    single one, and the value is 0; likewise for [1.2.3]. *)
Lemma two_points_survive :
  Amount.strip_non_numeric "Rs. 1,000.50" = ".1000.50" ∧
  count_points (Amount.strip_non_numeric "Rs. 1,000.50") = 2 ∧
  Amount.normalize_amount "Rs. 1,000.50" = Q2Qc 0 ∧
  Amount.strip_non_numeric "1.2.3" = "1.2.3" ∧
  Amount.normalize_amount "1.2.3" = Q2Qc 0.
Proof. repeat split; try reflexivity; apply Qc_is_canon; reflexivity. Qed.


End Samples.

(** * Further properties of the script *)

(** ** The column check *)

Section ColumnCheck.

Variable to_datetime : string -> option Date.Timestamp.
Variable to_numeric_cell : string -> option Qc.
Variable float_str : Qc -> string.


(** The column reported is the first, in the order of the template,
    that one of the frames lacks; the GSTR2B frame is looked at first. *)
Lemma check_columns_first required gstr2b_df tally_df f c :
  check_columns required gstr2b_df tally_df = Some (f, c) →
  ∃ before after,
    required = (before ++ c :: after)%list ∧
    (∀ col, col ∈ before → col ∈ columns gstr2b_df ∧ col ∈ columns tally_df) ∧
    (c ∉ columns (frame_of f gstr2b_df tally_df)) ∧
    (f = Tally → c ∈ columns gstr2b_df).
Proof.
  induction required as [|x required IH]; simpl; [discriminate|].
  unfold has_column. repeat case_bool_decide; simpl.
  - intros (before & after & -> & Hb & Hc & Hf)%IH.
    exists (x :: before), after. split; [done|]. split; [|done].
    by intros col [->|?]%elem_of_cons; [|apply Hb].
  - intros [= <- <-]. exists [], required. split; [done|].
    split; [by intros col ?%elem_of_nil|]. done.
  - intros [= <- <-]. exists [], required. split; [done|].
    split; [by intros col ?%elem_of_nil|]. done.
  - intros [= <- <-]. exists [], required. split; [done|].
    split; [by intros col ?%elem_of_nil|]. done.
Qed.


(** X2. When the run stops, the column named in the message is the
    first of the template's columns that is absent from either
    workbook, and the GSTR2B workbook is named whenever it lacks that
    column: the Tally workbook is named only for a column the GSTR2B
    workbook has. *)
Theorem stopped_run_names_first_missing_column gstr_file tally_file :
  (∃ rep, run to_datetime to_numeric_cell float_str gstr_file tally_file = Completed rep) ∨
  (∃ f c before after,
     run to_datetime to_numeric_cell float_str gstr_file tally_file
       = Stopped (missing_column_message f c) ∧
     required_columns = (before ++ c :: after)%list ∧
     (∀ col, col ∈ before →
        col ∈ Text.strip <$> columns gstr_file ∧ col ∈ Text.strip <$> columns tally_file) ∧
     (c ∉ Text.strip <$> columns (frame_of f gstr_file tally_file)) ∧
     (f = Tally → c ∈ Text.strip <$> columns gstr_file)).
Proof.
  unfold run. destruct (check_columns _ _ _) as [[f c]|] eqn:Hc; [right|left; eauto].
  apply check_columns_first in Hc as (before & after & E & Hb & Hn & Hf).
  exists f, c, before, after. split; [done|]. split; [done|]. split; [done|].
  split; [by destruct f|done].
Qed.

End ColumnCheck.

(** ** The matcher on special inputs *)

Section Matcher.

Variable float_str : Qc -> string.

Lemma merge_nil_r on (left : list Row) : merge on left [] = [].
Proof. unfold merge. induction left as [|a left IH]; [done|]. by rewrite bind_cons, IH. Qed.

Lemma filter_all {A : Type} (P : A → Prop) `{!∀ x, Decision (P x)} (l : list A) :
  (∀ x, x ∈ l → P x) → filter P l = l.
Proof.
  induction l as [|x l IH]; intros Hall; [done|].
  rewrite filter_cons, decide_True by (apply Hall; by apply elem_of_cons; left).
  rewrite IH; [done|]. intros y ?. apply Hall. by apply elem_of_cons; right.
Qed.

Lemma filter_none {A : Type} (P : A → Prop) `{!∀ x, Decision (P x)} (l : list A) :
  (∀ x, x ∈ l → ¬ P x) → filter P l = [].
Proof.
  induction l as [|x l IH]; intros Hall; [done|].
  rewrite filter_cons, decide_False by (apply Hall; by apply elem_of_cons; left).
  apply IH. intros y ?. apply Hall. by apply elem_of_cons; right.
Qed.

Lemma not_isin_empty (df : list Row) : not_isin ∅ df = df.
Proof. unfold not_isin. apply filter_all. intros r _. apply not_elem_of_empty. Qed.

(** X3. A frame without rows on one side: no pair is formed, the first
    three loops emit nothing, and every row of the other frame, in its
    order, is the "only" sheet of its side. *)
Theorem empty_side_leaves_other_unmatched (df : list Row) :
  reconcile float_str df [] =
    {| sheet1 := []; sheet2 := df; sheet3 := []; sheet4_df := []; sheet5_final := [] |} ∧
  reconcile float_str [] df =
    {| sheet1 := []; sheet2 := []; sheet3 := df; sheet4_df := []; sheet5_final := [] |}.
Proof.
  split.
  - assert (E1 : after_sheet1 float_str df [] = ([], no_indices)).
    { unfold after_sheet1, merged_full. by rewrite merge_nil_r. }
    assert (E4 : after_sheet4 float_str df [] = ([], no_indices)).
    { unfold after_sheet4, merged_value, potential_sheet4_tally. rewrite E1.
      simpl. by rewrite merge_nil_r. }
    assert (E5 : after_sheet5 float_str df [] = ([], no_indices)).
    { unfold after_sheet5, merged_invoice_only, tally_remaining. rewrite E4.
      simpl. by rewrite merge_nil_r. }
    unfold reconcile, sheet5_records. rewrite E1, E4, E5. simpl.
    by rewrite !not_isin_empty.
  - assert (E1 : after_sheet1 float_str [] df = ([], no_indices)) by done.
    assert (E4 : after_sheet4 float_str [] df = ([], no_indices)).
    { unfold after_sheet4, merged_value, potential_sheet4_gstr. by rewrite E1. }
    assert (E5 : after_sheet5 float_str [] df = ([], no_indices)).
    { unfold after_sheet5, merged_invoice_only, gstr2b_remaining. by rewrite E4. }
    unfold reconcile, sheet5_records. rewrite E1, E4, E5. simpl.
    by rewrite !not_isin_empty.
Qed.

Lemma written_sheets_nil rep :
  written_sheets rep = [] →
  sheet1 rep = [] ∧ sheet2 rep = [] ∧ sheet3 rep = [] ∧ sheet4_df rep = [] ∧
  sheet5_final rep = [].
Proof.
  unfold written_sheets.
  destruct (sheet1 rep), (sheet2 rep), (sheet3 rep), (sheet4_df rep), (sheet5_final rep);
    simpl; by intros.
Qed.

(** X4. The workbook is left without any sheet exactly when both frames
    have no row: as soon as one frame has a row, at least one of the
    five tables is not empty and is written. *)
Theorem no_sheet_written_iff_no_rows (gstr2b_df tally_df : list Row) :
  written_sheets (reconcile float_str gstr2b_df tally_df) = [] ↔
  gstr2b_df = [] ∧ tally_df = [].
Proof.
  split.
  - intros (H1 & H2 & H3 & H4 & H5)%written_sheets_nil. split.
    + destruct gstr2b_df as [|a l]; [done|]. exfalso.
      pose proof (gstr2b_one_category float_str (a :: l) tally_df a) as Hc.
      unfold gstr2b_categories in Hc. rewrite H1, H2, H4, H5 in Hc.
      rewrite !bool_decide_eq_false_2 in Hc by (by intros ?%elem_of_nil).
      simpl in Hc. specialize (Hc ltac:(by apply elem_of_cons; left)). discriminate.
    + destruct tally_df as [|b l]; [done|]. exfalso.
      pose proof (tally_one_category float_str gstr2b_df (b :: l) b) as Hc.
      unfold tally_categories in Hc. rewrite H1, H3, H4, H5 in Hc.
      rewrite !bool_decide_eq_false_2 in Hc by (by intros ?%elem_of_nil).
      simpl in Hc. specialize (Hc ltac:(by apply elem_of_cons; left)). discriminate.
  - by intros [-> ->].
Qed.

(** X11. The processed sets only grow from one loop to the next, and
    hold nothing but [S.No] values of their own frame. *)
Theorem processed_indices_grow_within_frame (gstr2b_df tally_df : list Row) :
  (gstr2b_processed_indices (after_sheet1 float_str gstr2b_df tally_df).2
     ⊆ gstr2b_processed_indices (after_sheet4 float_str gstr2b_df tally_df).2 ∧
   gstr2b_processed_indices (after_sheet4 float_str gstr2b_df tally_df).2
     ⊆ gstr2b_processed_indices (after_sheet5 float_str gstr2b_df tally_df).2 ∧
   ∀ x, x ∈ gstr2b_processed_indices (after_sheet5 float_str gstr2b_df tally_df).2 →
        x ∈ S_No <$> gstr2b_df) ∧
  (tally_processed_indices (after_sheet1 float_str gstr2b_df tally_df).2
     ⊆ tally_processed_indices (after_sheet4 float_str gstr2b_df tally_df).2 ∧
   tally_processed_indices (after_sheet4 float_str gstr2b_df tally_df).2
     ⊆ tally_processed_indices (after_sheet5 float_str gstr2b_df tally_df).2 ∧
   ∀ x, x ∈ tally_processed_indices (after_sheet5 float_str gstr2b_df tally_df).2 →
        x ∈ S_No <$> tally_df).
Proof.
  split; (split; [|split]).
  - intros x ?. rewrite P4_gstr2b. by left.
  - intros x ?. rewrite P5_gstr2b. by left.
  - intros x. rewrite P5_gstr2b, P4_gstr2b, P1_gstr2b.
    intros [[([a b] & Hm & <-)|([a b] & Hm & _ & <-)]|([a b] & Hm & _ & <-)];
      apply elem_of_merge in Hm as (Ha & _ & _); simpl;
      try apply elem_of_not_isin in Ha as [_ Ha]; by apply list_elem_of_fmap_2.
  - intros x ?. rewrite P4_tally. by left.
  - intros x ?. rewrite P5_tally. by left.
  - intros x. rewrite P5_tally, P4_tally, P1_tally.
    intros [[([a b] & Hm & <-)|([a b] & Hm & _ & <-)]|([a b] & Hm & _ & <-)];
      apply elem_of_merge in Hm as (_ & Hb & _); simpl;
      try apply elem_of_not_isin in Hb as [_ Hb]; by apply list_elem_of_fmap_2.
Qed.

End Matcher.

(** ** Repeated keys and keys that run together *)

Section Keys.

Variable float_str : Qc -> string.

Lemma merge_uniform on (left right : list Row) :
  (∀ a b, a ∈ left → b ∈ right → on a = on b) →
  merge on left right = left ≫= λ a, pair a <$> right.
Proof.
  intros H. unfold merge. induction left as [|a left IH]; [done|].
  rewrite !bind_cons, IH by (intros; apply H; [by apply elem_of_cons; right|done]).
  f_equal. f_equal. apply filter_all. intros b Hb. apply H; [by apply elem_of_cons; left|done].
Qed.

Lemma length_cross (left right : list Row) :
  length (left ≫= λ a, pair a <$> right) = length left * length right.
Proof.
  induction left as [|a left IH]; [done|].
  rewrite bind_cons, length_app, length_fmap, IH. simpl. lia.
Qed.

Lemma not_isin_all (indices : gset string) (df : list Row) :
  (∀ r, r ∈ df → S_No r ∈ indices) → not_isin indices df = [].
Proof. intros H. unfold not_isin. apply filter_none. intros r Hr Hn. by apply Hn, H. Qed.

(** X5. Repeated keys multiply: when all rows of both frames carry one
    and the same full key, Matched Invoices has a row for every pair of
    a GSTR2B row and a Tally row, so as many rows as the product of the
    two row counts; every row is processed there, and the other four
    tables are empty. *)
Theorem repeated_full_key_gives_cross_product (gstr2b_df tally_df : list Row) :
  gstr2b_df ≠ [] → tally_df ≠ [] →
  (∀ a b, a ∈ gstr2b_df → b ∈ tally_df →
          match_key_full float_str a = match_key_full float_str b) →
  sheet1 (reconcile float_str gstr2b_df tally_df)
    = sheet1_entry <$> (gstr2b_df ≫= λ a, pair a <$> tally_df) ∧
  length (sheet1 (reconcile float_str gstr2b_df tally_df))
    = length gstr2b_df * length tally_df ∧
  sheet2 (reconcile float_str gstr2b_df tally_df) = [] ∧
  sheet3 (reconcile float_str gstr2b_df tally_df) = [] ∧
  sheet4_df (reconcile float_str gstr2b_df tally_df) = [] ∧
  sheet5_final (reconcile float_str gstr2b_df tally_df) = [].
Proof.
  intros HA HB Hk.
  assert (Hm : merged_full float_str gstr2b_df tally_df
               = gstr2b_df ≫= λ a, pair a <$> tally_df).
  { unfold merged_full. by apply merge_uniform. }
  assert (HPA : ∀ r, r ∈ gstr2b_df →
            S_No r ∈ gstr2b_processed_indices (after_sheet1 float_str gstr2b_df tally_df).2).
  { intros a Ha. destruct tally_df as [|b l]; [done|]. rewrite P1_gstr2b. exists (a, b).
    split; [|done]. unfold merged_full. rewrite elem_of_merge.
    assert (b ∈ b :: l) by (by apply elem_of_cons; left). auto. }
  assert (HPB : ∀ r, r ∈ tally_df →
            S_No r ∈ tally_processed_indices (after_sheet1 float_str gstr2b_df tally_df).2).
  { intros b Hb. destruct gstr2b_df as [|a l]; [done|]. rewrite P1_tally. exists (a, b).
    split; [|done]. unfold merged_full. rewrite elem_of_merge.
    assert (a ∈ a :: l) by (by apply elem_of_cons; left). auto. }
  assert (E4 : after_sheet4 float_str gstr2b_df tally_df
               = ([], (after_sheet1 float_str gstr2b_df tally_df).2)).
  { unfold after_sheet4, merged_value, potential_sheet4_gstr.
    by rewrite (not_isin_all _ gstr2b_df HPA). }
  assert (E5 : after_sheet5 float_str gstr2b_df tally_df
               = ([], (after_sheet1 float_str gstr2b_df tally_df).2)).
  { unfold after_sheet5, merged_invoice_only, gstr2b_remaining. rewrite E4. simpl.
    by rewrite (not_isin_all _ gstr2b_df HPA). }
  unfold reconcile, sheet5_records. simpl. rewrite E4, E5. simpl.
  rewrite sheet1_rows, Hm, length_fmap, length_cross.
  rewrite (not_isin_all _ gstr2b_df HPA), (not_isin_all _ tally_df HPB). done.
Qed.



End Keys.

(** ** Unique row numbers *)

Section UniqueIds.

Variable float_str : Qc -> string.

Lemma drop_duplicates_from_all_new seen (records : list PartialRow.t) :
  NoDup (PartialRow.ids <$> records) →
  (∀ r, r ∈ records → PartialRow.ids r ∉ seen) →
  drop_duplicates_from seen records = records.
Proof.
  revert seen. induction records as [|x records IH]; intros seen Hnd Hs; [done|].
  rewrite fmap_cons in Hnd. apply list.NoDup_cons in Hnd as [Hx Hnd]. simpl.
  rewrite bool_decide_eq_false_2 by (apply Hs; by apply elem_of_cons; left).
  f_equal. apply IH; [done|]. intros r Hr. rewrite not_elem_of_cons. split.
  - intros E. apply Hx. rewrite <- E. by apply list_elem_of_fmap_2.
  - apply Hs. by apply elem_of_cons; right.
Qed.

Lemma NoDup_merge_ids on (left right : list Row) :
  NoDup (S_No <$> left) → NoDup (S_No <$> right) →
  NoDup (row_ids <$> merge on left right).
Proof.
  intros Hl Hr. unfold merge. induction left as [|a left IH]; [constructor|].
  rewrite fmap_cons in Hl. apply list.NoDup_cons in Hl as [Ha Hl].
  rewrite bind_cons, fmap_app. apply list.NoDup_app. split; [|split].
  - rewrite <- list_fmap_compose.
    assert (E : row_ids ∘ pair a = pair (S_No a) ∘ S_No) by done. rewrite E.
    rewrite list_fmap_compose. apply NoDup_fmap_2; [by intros ?? [= ?]|].
    eapply sublist_NoDup; [exact Hr|apply fmap_sublist, sublist_filter].
  - intros x (row & -> & Hrow)%list_elem_of_fmap (row' & E & Hrow')%list_elem_of_fmap.
    apply list_elem_of_fmap in Hrow as (b & -> & _).
    apply list_elem_of_bind in Hrow' as (a' & Hin & Ha').
    apply list_elem_of_fmap in Hin as (b' & -> & _).
    injection E as E _. apply Ha. rewrite E. by apply list_elem_of_fmap_2.
  - by apply IH.
Qed.

Lemma NoDup_not_isin indices (df : list Row) :
  NoDup (S_No <$> df) → NoDup (S_No <$> not_isin indices df).
Proof.
  intros H. eapply sublist_NoDup; [exact H|apply fmap_sublist, sublist_filter].
Qed.

(** X7. With row numbers that are unique within each frame, no two
    collected Sheet 5 records carry the same combination, so
    [drop_duplicates] removes nothing: Not Matching is the list of
    collected records. *)
Theorem unique_row_numbers_make_dedup_idle (gstr2b_df tally_df : list Row) :
  NoDup (S_No <$> gstr2b_df) → NoDup (S_No <$> tally_df) →
  NoDup (PartialRow.ids <$> sheet5_records float_str gstr2b_df tally_df) ∧
  sheet5_final (reconcile float_str gstr2b_df tally_df)
    = sheet5_records float_str gstr2b_df tally_df.
Proof.
  intros HA HB.
  assert (Hnd : NoDup (PartialRow.ids <$> sheet5_records float_str gstr2b_df tally_df)).
  { rewrite sheet5_rows, <- list_fmap_compose.
    rewrite (list_fmap_ext _ row_ids) by (by intros i [a b] _).
    eapply sublist_NoDup; [|apply fmap_sublist, sublist_filter].
    unfold merged_invoice_only. apply NoDup_merge_ids; by apply NoDup_not_isin. }
  split; [done|]. unfold reconcile. cbn [sheet5_final]. unfold drop_duplicates.
  apply drop_duplicates_from_all_new; [done|]. by intros r _ ?%elem_of_nil.
Qed.

End UniqueIds.

(** ** Cleaning text and amounts *)

Section Cleaning.

Lemma is_space_upper_char c : Text.is_space (Text.upper_char c) = Text.is_space c.
Proof. by destruct c as [[] [] [] [] [] [] [] []]. Qed.

Lemma upper_char_idem c : Text.upper_char (Text.upper_char c) = Text.upper_char c.
Proof. by destruct c as [[] [] [] [] [] [] [] []]. Qed.

Lemma upper_idem (s : string) : Text.upper (Text.upper s) = Text.upper s.
Proof. induction s as [|c s IH]; simpl; [done|]. by rewrite upper_char_idem, IH. Qed.

Lemma lstrip_upper (s : string) : Text.lstrip (Text.upper s) = Text.upper (Text.lstrip s).
Proof.
  induction s as [|c s IH]; [done|]. cbn [Text.upper Text.lstrip].
  rewrite is_space_upper_char. by destruct (Text.is_space c).
Qed.

Lemma rstrip_upper (s : string) : Text.rstrip (Text.upper s) = Text.upper (Text.rstrip s).
Proof.
  induction s as [|c s IH]; [done|]. cbn [Text.upper Text.rstrip].
  rewrite IH, is_space_upper_char.
  destruct (Text.rstrip s) as [|c' r]; cbn [Text.upper]; [|done].
  by destruct (Text.is_space c).
Qed.

Lemma strip_upper (s : string) : Text.strip (Text.upper s) = Text.upper (Text.strip s).
Proof. unfold Text.strip. by rewrite lstrip_upper, rstrip_upper. Qed.

Lemma rstrip_idem (s : string) : Text.rstrip (Text.rstrip s) = Text.rstrip s.
Proof.
  induction s as [|c s IH]; [done|]. cbn [Text.rstrip].
  destruct (Text.rstrip s) as [|c' r] eqn:E.
  - destruct (Text.is_space c) eqn:Hc; [done|]. cbn [Text.rstrip]. by rewrite Hc.
  - cbn [Text.rstrip] in *. by rewrite IH.
Qed.

(** What [lstrip] leaves does not start with white space. *)
Lemma lstrip_head (s : string) :
  match Text.lstrip s with
  | EmptyString => True
  | String c _ => Text.is_space c = false
  end.
Proof.
  induction s as [|c s IH]; [done|]. cbn [Text.lstrip].
  by destruct (Text.is_space c) eqn:Hc.
Qed.

Lemma rstrip_head c (s : string) :
  Text.is_space c = false → Text.rstrip (String c s) = String c (Text.rstrip s).
Proof. intros Hc. cbn [Text.rstrip]. destruct (Text.rstrip s); by rewrite ?Hc. Qed.

Lemma strip_idem (s : string) : Text.strip (Text.strip s) = Text.strip s.
Proof.
  unfold Text.strip. pose proof (lstrip_head s) as Hh.
  destruct (Text.lstrip s) as [|c r]; [done|].
  rewrite rstrip_head by done. cbn [Text.lstrip]. rewrite Hh.
  by rewrite rstrip_head, rstrip_idem.
Qed.

(** X10. [clean_value] is idempotent, and blind to letter case and to
    white space at either end: cleaning what is already cleaned, what
    was upper-cased or what was trimmed gives the same text, so such
    differences never reach the match keys. *)
Theorem clean_value_idempotent (value : string) :
  clean_value (clean_value value) = clean_value value ∧
  clean_value (Text.upper value) = clean_value value ∧
  clean_value (Text.strip value) = clean_value value.
Proof.
  unfold clean_value. split; [|split].
  - by rewrite strip_upper, strip_idem, upper_idem.
  - by rewrite strip_upper, upper_idem.
  - by rewrite strip_idem.
Qed.

(** X8. In [Invoice Value] and [Taxable Value] a character that is
    neither a digit nor a point, wherever it stands, changes nothing:
    a minus sign, a thousands separator, a currency sign or the [e] of
    an exponent is dropped before the number is read. *)
Theorem amount_ignores_other_characters (before after : string) (c : ascii) :
  Text.is_digit c = false → c ≠ "."%char →
  Amount.normalize_amount (before ++ String c after)
    = Amount.normalize_amount (before ++ after).
Proof.
  intros Hd Hp. unfold Amount.normalize_amount, Amount.strip_non_numeric.
  rewrite !keep_chars_app. cbn [Text.keep_chars]. rewrite Hd.
  apply Ascii.eqb_neq in Hp. by rewrite Hp.
Qed.

Lemma Q2Qc_nonneg (q : Q) : (0 <= q)%Q → (Q2Qc 0 <= Q2Qc q)%Qc.
Proof.
  intros H. unfold Qcle. simpl. rewrite !Qred_correct. exact H.
Qed.

Lemma to_numeric_nonneg (s : string) v :
  Amount.to_numeric s = Some v → (Q2Qc 0 <= v)%Qc.
Proof.
  unfold Amount.to_numeric. destruct (Amount.span_digits s) as [ip rest].
  destruct rest as [|c fp].
  - destruct (Amount.is_empty ip); [done|]. intros [= <-].
    apply Q2Qc_nonneg. unfold Qle. simpl. lia.
  - destruct (_ && _); [|done]. intros [= <-].
    apply Q2Qc_nonneg. unfold Qle. simpl. lia.
Qed.

(** X9. A normalised [Invoice Value] or [Taxable Value] is never
    negative, whatever the cell holds. *)
Theorem normalized_amount_nonnegative (cell : string) :
  (Q2Qc 0 <= Amount.normalize_amount cell)%Qc.
Proof.
  unfold Amount.normalize_amount, Amount.fillna0.
  destruct (Amount.to_numeric _) as [v|] eqn:E; simpl.
  - by apply to_numeric_nonneg in E.
  - apply Qcle_refl.
Qed.

End Cleaning.

(** ** The two sides are treated alike *)

Section Symmetry.

Variable float_str : Qc -> string.

Lemma merge_swap on (left right : list Row) a b :
  (a, b) ∈ merge on left right ↔ (b, a) ∈ merge on right left.
Proof. rewrite !elem_of_merge. split; intros (? & ? & ?); done. Qed.

Lemma value_differs_swap a b : value_differs (a, b) = value_differs (b, a).
Proof. unfold value_differs, Amount.differs. cbn [fst snd]. by rewrite Qcabs_Qcminus. Qed.

Lemma date_ne_swap x y : Date.ne x y = Date.ne y x.
Proof. destruct x, y; simpl; [|done..]. by rewrite String.eqb_sym. Qed.

Lemma any_mismatch_swap a b : any_mismatch (a, b) = any_mismatch (b, a).
Proof.
  unfold any_mismatch, is_gstin_mismatch, is_date_mismatch, is_taxable_value_mismatch,
    Amount.differs.
  cbn [fst snd]. by rewrite String.eqb_sym, date_ne_swap, Qcabs_Qcminus.
Qed.

Lemma P1_swap (df1 df2 : list Row) x :
  x ∈ gstr2b_processed_indices (after_sheet1 float_str df1 df2).2 ↔
  x ∈ tally_processed_indices (after_sheet1 float_str df2 df1).2.
Proof.
  rewrite P1_gstr2b, P1_tally. unfold merged_full.
  split; intros ([a b] & Hm & <-); exists (b, a); by rewrite merge_swap.
Qed.

Lemma merged_value_swap (df1 df2 : list Row) a b :
  (a, b) ∈ merged_value float_str df1 df2 ↔ (b, a) ∈ merged_value float_str df2 df1.
Proof.
  unfold merged_value, potential_sheet4_gstr, potential_sheet4_tally.
  rewrite !elem_of_merge, !elem_of_not_isin.
  rewrite (P1_swap df1 df2), (P1_swap df2 df1). split; intros (? & ? & ?); done.
Qed.

Lemma P4_swap (df1 df2 : list Row) x :
  x ∈ gstr2b_processed_indices (after_sheet4 float_str df1 df2).2 ↔
  x ∈ tally_processed_indices (after_sheet4 float_str df2 df1).2.
Proof.
  rewrite P4_gstr2b, P4_tally, P1_swap.
  split; (intros [?|([a b] & Hm & Hd & <-)]; [by left|right]); exists (b, a);
    by rewrite merged_value_swap, value_differs_swap.
Qed.

Lemma merged_invoice_only_swap (df1 df2 : list Row) a b :
  (a, b) ∈ merged_invoice_only float_str df1 df2 ↔
  (b, a) ∈ merged_invoice_only float_str df2 df1.
Proof.
  unfold merged_invoice_only, gstr2b_remaining, tally_remaining.
  rewrite !elem_of_merge, !elem_of_not_isin.
  rewrite (P4_swap df1 df2), (P4_swap df2 df1). split; intros (? & ? & ?); done.
Qed.

Lemma P5_swap (df1 df2 : list Row) x :
  x ∈ gstr2b_processed_indices (after_sheet5 float_str df1 df2).2 ↔
  x ∈ tally_processed_indices (after_sheet5 float_str df2 df1).2.
Proof.
  rewrite P5_gstr2b, P5_tally, P4_swap.
  split; (intros [?|([a b] & Hm & Hd & <-)]; [by left|right]); exists (b, a);
    by rewrite merged_invoice_only_swap, any_mismatch_swap.
Qed.

(** X12. The matcher treats the two sides alike: with the workbooks
    exchanged, the rows left unmatched are the same, GSTR2B Only and
    Tally Only changing places. *)
Theorem exchanging_sides_exchanges_only_sheets (df1 df2 : list Row) :
  sheet2 (reconcile float_str df1 df2) = sheet3 (reconcile float_str df2 df1) ∧
  sheet3 (reconcile float_str df1 df2) = sheet2 (reconcile float_str df2 df1).
Proof.
  unfold reconcile. cbn [sheet2 sheet3]. unfold not_isin. split.
  - apply list_filter_iff. intros r. by rewrite P5_swap.
  - apply list_filter_iff. intros r. by rewrite <- P5_swap.
Qed.

End Symmetry.

(** ** The differences shown in Value Mismatched *)

Section Differences.

Variable float_str : Qc -> string.

Lemma floor_far_from_zero (y : Q) :
  (1 < y)%Q ∨ (y < (-1 # 1))%Q → (Qfloor y ≠ 0 ∧ Qfloor y + 1 ≠ 0)%Z.
Proof.
  intros [H|H].
  - pose proof (Qfloor_resp_le 1 y (Qlt_le_weak _ _ H)) as Hf.
    change 1%Q with (inject_Z 1) in Hf. rewrite Qfloor_Z in Hf. lia.
  - pose proof (Qfloor_le y) as Hf.
    assert (Hlt : (inject_Z (Qfloor y) < inject_Z (-1))%Q).
    { eapply Qle_lt_trans; [exact Hf|exact H]. }
    rewrite <- Zlt_Qlt in Hlt. lia.
Qed.

Lemma scaled_far (q : Q) :
  ((1 # 100) < Qabs q)%Q → (1 < q * (100 # 1))%Q ∨ (q * (100 # 1) < (-1 # 1))%Q.
Proof.
  intros H. destruct q as [a b]. unfold Qabs, Qlt, Qmult in *. simpl in *. lia.
Qed.

(** Rounding to two decimals never turns an amount beyond the tolerance
    into 0. *)
Lemma round2_nonzero (x : Qc) :
  (Amount.tolerance < Qcabs x)%Qc → Amount.round2 x ≠ Q2Qc 0.
Proof.
  intros H. unfold Amount.round2.
  set (y := (x * Q2Qc (100 # 1))%Qc).
  assert (Hy : (1 < y)%Q ∨ (y < (-1 # 1))%Q).
  { unfold y. unfold Qclt in H.
    assert (E : ((x * Q2Qc (100 # 1))%Qc == x * (100 # 1))%Q).
    { unfold Qcmult. simpl. rewrite !Qred_correct. reflexivity. }
    rewrite E. apply scaled_far.
    assert (E2 : (Amount.tolerance == (1 # 100))%Q)
      by (unfold Amount.tolerance; simpl; apply Qred_correct).
    rewrite <- E2. exact H. }
  apply floor_far_from_zero in Hy as [H1 H2].
  match goal with
  | |- Q2Qc (?n # 100) ≠ _ => assert (Hn : n ≠ 0%Z); [|generalize dependent n]
  end.
  { repeat case_bool_decide; try done. by destruct (Z.even _). }
  intros n Hn E. apply Q2Qc_eq_iff in E. unfold Qeq in E. simpl in E. lia.
Qed.

(** X13. A row of Value Mismatched never shows 0.00 as its
    [Difference: Taxable Value]: the difference passed the tolerance
    test before it was rounded to two decimals, and its sign is that of
    Tally minus GSTR2B. *)
Theorem value_mismatched_difference_nonzero (gstr2b_df tally_df : list Row) r :
  r ∈ sheet4_df (reconcile float_str gstr2b_df tally_df) →
  MatchRow.Difference_Taxable_Value r ≠ Q2Qc 0.
Proof.
  unfold reconcile. cbn [sheet4_df]. rewrite sheet4_rows.
  intros ([a b] & -> & [Hd _]%list_elem_of_filter)%list_elem_of_fmap.
  apply Is_true_true in Hd. unfold value_differs, Amount.differs in Hd.
  apply bool_decide_eq_true in Hd. cbn [fst snd] in Hd.
  cbn [sheet4_entry MatchRow.Difference_Taxable_Value].
  apply round2_nonzero. by rewrite Qcabs_Qcminus.
Qed.

End Differences.

(** ** Column headers *)

Section Headers.

Variable to_datetime : string -> option Date.Timestamp.
Variable to_numeric_cell : string -> option Qc.
Variable float_str : Qc -> string.



End Headers.

(** ** Reasons that cannot occur *)

Section Reasons.

Variable float_str : Qc -> string.

Lemma reason_only_value g d v :
  reason_in_words g d v = "Taxable Value mismatch" → g = false ∧ d = false ∧ v = true.
Proof. by destruct g, d, v. Qed.

Lemma date_ne_false x y : Date.ne x y = false → x = y.
Proof.
  destruct x as [x|], y as [y|]; simpl; try done.
  intros H. apply negb_false_iff, String.eqb_eq in H. by rewrite H.
Qed.

(** X15. In Not Matching the reason is never [Taxable Value mismatch]
    alone: two rows that agree in invoice number, GSTIN and date and
    differ in taxable value beyond the tolerance have equal partial
    keys, and are taken by the Value Mismatched loop before. *)
Theorem taxable_value_reason_never_alone (gstr2b_df tally_df : list Row) r :
  r ∈ sheet5_final (reconcile float_str gstr2b_df tally_df) →
  PartialRow.Mismatch_Reason r ≠ "Taxable Value mismatch".
Proof.
  unfold reconcile. cbn [sheet5_final].
  intros [Hr _]%drop_duplicates_from_elem. rewrite sheet5_rows in Hr.
  apply list_elem_of_fmap in Hr as ([a b] & -> & [_ Hm]%list_elem_of_filter).
  cbn [sheet5_entry PartialRow.Mismatch_Reason]. rewrite mismatch_reason_in_words.
  intros (Hg & Hd & Hv)%reason_only_value.
  pose proof (merged_invoice_only_fresh float_str _ _ _ Hm) as [Hfa Hfb].
  unfold merged_invoice_only in Hm. apply elem_of_merge in Hm as (Ha & Hb & Hn).
  apply elem_of_not_isin in Ha as [_ Ha]. apply elem_of_not_isin in Hb as [_ Hb].
  unfold is_gstin_mismatch in Hg. apply negb_false_iff, String.eqb_eq in Hg.
  apply date_ne_false in Hd. cbn [fst snd] in *.
  apply Hfa. rewrite P4_gstr2b. right. exists (a, b). split; [|done].
  unfold merged_value, potential_sheet4_gstr, potential_sheet4_tally.
  rewrite elem_of_merge, !elem_of_not_isin.
  split; [|split].
  - split; [|done]. intros H1. apply Hfa. rewrite P4_gstr2b. by left.
  - split; [|done]. intros H1. apply Hfb. rewrite P4_tally. by left.
  - unfold match_key_value. by rewrite Hn, Hg, Hd.
Qed.

End Reasons.

(** ** The further properties on sample data *)

Section FurtherSamples.

(** Two GSTR2B rows and one Tally row of the same invoice: two rows in
    Matched Invoices. *)
Lemma repeated_full_key_gives_cross_product_witness :
  [gstr_row; gstr_row_again] ≠ [] ∧ [tally_row] ≠ [] ∧
  sheet1 (reconcile code_str [gstr_row; gstr_row_again] [tally_row])
    = [sheet1_entry (gstr_row, tally_row); sheet1_entry (gstr_row_again, tally_row)] ∧
  length (sheet1 (reconcile code_str [gstr_row; gstr_row_again] [tally_row])) = 2 ∧
  sheet2 (reconcile code_str [gstr_row; gstr_row_again] [tally_row]) = [].
Proof.
  assert (HA : [gstr_row; gstr_row_again] ≠ []) by done.
  assert (HB : [tally_row] ≠ []) by done.
  assert (Hk : ∀ a b, a ∈ [gstr_row; gstr_row_again] → b ∈ [tally_row] →
                      match_key_full code_str a = match_key_full code_str b).
  { intros a b Ha ->%list_elem_of_singleton.
    apply elem_of_cons in Ha as [->|Ha]; [reflexivity|].
    apply list_elem_of_singleton in Ha as ->. reflexivity. }
  pose proof (repeated_full_key_gives_cross_product code_str
                [gstr_row; gstr_row_again] [tally_row] HA HB Hk) as (H1 & Hl & H2 & _).
  exact (conj HA (conj HB (conj H1 (conj Hl H2)))).
Defined.


(** Two GSTR2B rows numbered 1 and 2 against one Tally row of the same
    invoice whose date is no date: two records, both kept. *)
Lemma unique_row_numbers_make_dedup_idle_witness :
  NoDup (S_No <$> [gstr_row; gstr_row_again]) ∧
  NoDup (S_No <$> [tally_row_nan]) ∧
  length (sheet5_records code_str [gstr_row; gstr_row_again] [tally_row_nan]) = 2 ∧
  NoDup (PartialRow.ids <$> sheet5_records code_str [gstr_row; gstr_row_again] [tally_row_nan]) ∧
  sheet5_final (reconcile code_str [gstr_row; gstr_row_again] [tally_row_nan])
    = sheet5_records code_str [gstr_row; gstr_row_again] [tally_row_nan].
Proof.
  assert (HA : NoDup (S_No <$> [gstr_row; gstr_row_again]))
    by (apply (bool_decide_unpack _); by vm_compute).
  assert (HB : NoDup (S_No <$> [tally_row_nan]))
    by (apply (bool_decide_unpack _); by vm_compute).
  assert (Hl : length (sheet5_records code_str [gstr_row; gstr_row_again] [tally_row_nan]) = 2)
    by (vm_compute; reflexivity).
  exact (conj HA (conj HB (conj Hl
    (unique_row_numbers_make_dedup_idle code_str [gstr_row; gstr_row_again] [tally_row_nan]
       HA HB)))).
Defined.

(** The thousands separator of [1,000]. *)
Lemma amount_ignores_other_characters_witness :
  Text.is_digit "," = false ∧
  Amount.normalize_amount "1,000" = Amount.normalize_amount "1000".
Proof.
  assert (Hd : Text.is_digit "," = false) by reflexivity.
  assert (Hp : ","%char ≠ "."%char) by discriminate.
  exact (conj Hd (amount_ignores_other_characters "1" "000" "," Hd Hp)).
Defined.

(** 1000 against 1100: the difference shown is 100. *)
Lemma value_mismatched_difference_nonzero_witness :
  sheet4_entry (gstr_row, tally_row_dearer)
    ∈ sheet4_df (reconcile code_str [gstr_row] [tally_row_dearer]) ∧
  MatchRow.Difference_Taxable_Value (sheet4_entry (gstr_row, tally_row_dearer)) ≠ Q2Qc 0.
Proof.
  assert (H : sheet4_entry (gstr_row, tally_row_dearer)
              ∈ sheet4_df (reconcile code_str [gstr_row] [tally_row_dearer]))
    by (vm_compute; left).
  exact (conj H (value_mismatched_difference_nonzero code_str _ _ _ H)).
Defined.

(** The row the two unparseable dates produce has the reason
    [Date mismatch]. *)
Lemma taxable_value_reason_never_alone_witness :
  sheet5_entry (gstr_row_nan, tally_row_nan_half_cent)
    ∈ sheet5_final (reconcile code_str [gstr_row_nan] [tally_row_nan_half_cent]) ∧
  PartialRow.Mismatch_Reason (sheet5_entry (gstr_row_nan, tally_row_nan_half_cent))
    ≠ "Taxable Value mismatch".
Proof.
  assert (H : sheet5_entry (gstr_row_nan, tally_row_nan_half_cent)
              ∈ sheet5_final (reconcile code_str [gstr_row_nan] [tally_row_nan_half_cent]))
    by (vm_compute; left).
  exact (conj H (taxable_value_reason_never_alone code_str _ _ _ H)).
Defined.

End FurtherSamples.
